(** * Dataset sampling over a geospatial compute service

    A shallow embedding of [extractor/datasets.py] (the [RasterDataset] and
    [VectorDataset] wrappers) and of the sample-area construction of
    [extractor/extractor.py].

    The Python code builds Earth Engine expressions that the service
    evaluates.  Here an expression is the value it evaluates to, wrapped in
    [Computed]: either [Ok v] or a [Fault] raised by a primitive that
    rejects its arguments.  The geometric and raster primitives of the
    service (buffering, intersection, area, distance transform, region
    reduction, ...) are not part of the repository; they are the fields of
    the class [GeoCompute], and what the code relies on about them is
    stated in the class [GeoComputeLaws].  Numbers of the service are
    modelled as rationals. *)

From Stdlib Require Import QArith Qround Qabs Lqa.
From stdpp Require Import gmap strings list.

Set Warnings "-register-all".
Open Scope Q_scope.
Open Scope string_scope.
Open Scope list_scope.
Open Scope stdpp_scope.

(** ** Evaluation results *)

Inductive Computed (A : Type) : Type :=
| Ok (a : A)
| Fault (msg : string).
Arguments Ok {A} a.
Arguments Fault {A} msg.

#[global] Instance Computed_ret : MRet Computed := fun _ a => Ok a.
#[global] Instance Computed_bind : MBind Computed := fun _ _ k c =>
  match c with
  | Ok a => k a
  | Fault msg => Fault msg
  end.
#[global] Instance Computed_fmap : FMap Computed := fun _ _ f c =>
  match c with
  | Ok a => Ok (f a)
  | Fault msg => Fault msg
  end.

(** ** Values of the service

    A property of an element holds a number, a string, a boolean, nothing
    ([Null]) or another element (the save-best join stores the matched
    feature under its match key). *)

Section Values.
Context {Geometry : Type}.

Inductive Value : Type :=
  | Null
  | Bool (b : bool)
  | Num (q : Q)
  | Str (s : string)
  | Element (geom : Geometry) (props : gmap string Value).

Record Feature : Type := mkFeature {
    Feature_geometry : Geometry;
    Feature_properties : gmap string Value;
  }.

Definition Feature_value (f : Feature) : Value :=
  Element (Feature_geometry f) (Feature_properties f).

(** How [ee.Algorithms.If] reads a condition that is not a boolean: null,
    zero and the empty string are false, everything else is true. *)
Definition truthy (v : Value) : bool :=
  match v with
  | Null => false
  | Bool b => b
  | Num q => negb (Qeq_bool q 0)
  | Str s => negb (String.eqb s "")
  | Element _ _ => true
  end.

(** [ee.Algorithms.If(condition, trueCase, falseCase)]: only the selected
    alternative contributes to the result. *)
Definition Algorithms_If {A} (condition : Computed Value)
    (trueCase falseCase : Computed A) : Computed A :=
  c ← condition; if truthy c then trueCase else falseCase.

(** [ee.Number.eq]: 1 when equal, 0 otherwise; both operands are required. *)
Definition Number_eq (a b : Value) : Computed Value :=
  match a, b with
  | Num x, Num y => Ok (Num (if Qeq_bool x y then 1 else 0))
  | _, _ => Fault "Number.eq: Parameter 'left' is required."
  end.

(** [element.get(property)]: the object is required; a property the
    element does not have reads as null. *)
Definition Element_get (object : Value) (property : string)
    : Computed Value :=
  match object with
  | Element _ props => Ok (default Null (props !! property))
  | _ => Fault "Element.get: Parameter 'object' is required."
  end.

Definition Feature_get (f : Feature) (property : string) : Value :=
  default Null (Feature_properties f !! property).

(** [element.set(key, value)] *)
Definition Feature_set (f : Feature) (key : string) (value : Value)
    : Feature :=
  mkFeature (Feature_geometry f) (<[key := value]> (Feature_properties f)).

(** [dictionary.get(key)] *)
Definition Dictionary_get (d : gmap string Value) (key : string)
    : Computed Value :=
  match d !! key with
  | Some v => Ok v
  | None => Fault "Dictionary.get: Dictionary does not contain key."
  end.

(** A feature collection, in its iteration order. *)
Definition FeatureCollection_size (c : list Feature) : Value :=
  Num (inject_Z (Z.of_nat (length c))).

Definition FeatureCollection_first (c : list Feature) : Value :=
  match c with
  | [] => Null
  | f :: _ => Feature_value f
  end.

Definition Qmax_opt (acc : option Q) (x : Q) : option Q :=
  match acc with
  | None => Some x
  | Some m => Some (if Qle_bool m x then x else m)
  end.

Definition number_property (property : string) (f : Feature) : option Q :=
  match Feature_properties f !! property with
  | Some (Num q) => Some q
  | _ => None
  end.

(** [collection.aggregate_max(property)]: null for an empty collection. *)
Definition FeatureCollection_aggregate_max (c : list Feature)
    (property : string) : Value :=
  match foldl Qmax_opt None (omap (number_property property) c) with
  | Some m => Num m
  | None => Null
  end.

(** [ee.Filter.gte(name, value)] on numbers. *)
Definition Filter_gte (name : string) (value : Value) (f : Feature) : bool :=
  match number_property name f, value with
  | Some x, Num m => Qle_bool m x
  | _, _ => false
  end.
End Values.
Arguments Value : clear implicits.
Arguments Feature : clear implicits.

Definition of_option {Geometry} (o : option Q) : Value Geometry :=
  match o with
  | Some q => Num q
  | None => Null
  end.

(** ** The primitives of the service *)

Inductive Reducer : Type := Reducer_mean | Reducer_mode | Reducer_median.

Record Kernel : Type := Kernel_euclidean { radius : Q; units : string }.

Class GeoCompute (Geometry Raster : Type) : Type := {
  Geometry_Point : Q -> Q -> Geometry;
  Geometry_buffer : Geometry -> Q -> Geometry;
  Geometry_intersection : Geometry -> Geometry -> Geometry;
  Geometry_area : Geometry -> Q;
  Geometry_intersects : Geometry -> Geometry -> bool;
  Geometry_distance : Geometry -> Geometry -> Q;
  (** one band: composite of a stack of tiles *)
  Raster_mosaic : list Raster -> Raster;
  (** one band: distance to the nearest valid pixel, within the kernel *)
  Raster_distance : Raster -> Kernel -> bool -> Raster;
  (** one band: statistic of the valid pixels in a region, at a scale *)
  Raster_reduce : Raster -> Reducer -> Geometry -> Q -> Q -> option Q;
  (** some valid pixel of the band lies in the region *)
  Raster_covers : Raster -> Geometry -> Prop;
}.

(** What the code relies on about the rasters of the service, as its
    comments state it: a reducer finds nothing where the band has no valid
    pixel ("the reducer will return None"); the distance surface has no
    valid pixel farther than the kernel radius from the data ("if the
    sample area is outside the search radius, None is returned"); and a
    mosaic of one tile is that tile.  A region is farther than [r] from the
    data when the region grown by [r] still holds no valid pixel. *)
Class GeoComputeLaws `{GeoCompute Geometry Raster} : Prop := {
  reduce_uncovered : forall r reducer g scale maxPixels,
    ~ Raster_covers r g -> Raster_reduce r reducer g scale maxPixels = None;
  covers_buffer : forall r g d,
    0 <= d -> Raster_covers r g -> Raster_covers r (Geometry_buffer g d);
  distance_out_of_range : forall r g d skipMasked,
    0 <= d -> ~ Raster_covers r (Geometry_buffer g d) ->
    ~ Raster_covers (Raster_distance r (Kernel_euclidean d "meters") skipMasked) g;
  mosaic_single : forall r, Raster_mosaic [r] = r;
}.

(** ** Images: named bands over the rasters of the service *)

Abbreviation Image Raster := (list (string * Raster)).

Section Images.
Context `{GeoCompute Geometry Raster}.

Definition Image_band (img : Image Raster) (band : string) : option Raster :=
  snd <$> List.find (fun b => String.eqb (fst b) band) img.

(** [image.select(bands, names)]: the listed bands, renamed in order. *)
Fixpoint Image_select (img : Image Raster) (bands names : list string)
    : Computed (Image Raster) :=
  match bands, names with
  | [], [] => Ok []
  | b :: bands', n :: names' =>
      match Image_band img b with
      | Some r => rest ← Image_select img bands' names'; Ok ((n, r) :: rest)
      | None => Fault "Image.select: Pattern did not match any bands."
      end
  | _, _ => Fault "Image.select: Parameter 'newNames' has the wrong length."
  end.

(** [collection.select(bands, names)] selects in every image. *)
Definition ImageCollection_select (c : list (Image Raster))
    (bands names : list string) : Computed (list (Image Raster)) :=
  mapM (fun img => Image_select img bands names) c.

(** [collection.mosaic()]: band by band, in the order of the collection;
    the bands are those of the first image. *)
Definition ImageCollection_mosaic (c : list (Image Raster)) : Image Raster :=
  match c with
  | [] => []
  | first :: _ =>
      map (fun b => (fst b,
             Raster_mosaic (omap (fun img => Image_band img (fst b)) c)))
          first
  end.

(** [image.distance(kernel, skipMasked)] *)
Definition Image_distance (img : Image Raster) (kernel : Kernel)
    (skipMasked : bool) : Image Raster :=
  map (fun b => (fst b, Raster_distance (snd b) kernel skipMasked)) img.

(** [image.reduceRegion(reducer, geometry, scale, maxPixels)]: a
    dictionary with one entry per band, null where nothing was found. *)
Definition Image_reduceRegion (img : Image Raster) (reducer : Reducer)
    (geometry : Geometry) (scale maxPixels : Q)
    : gmap string (Value Geometry) :=
  list_to_map
    (map (fun b => (fst b,
            of_option (Raster_reduce (snd b) reducer geometry scale maxPixels)))
         img).

(** [geometry.buffer(distance)]: the distance is required. *)
Definition buffer (geometry : Geometry) (distance : Value Geometry)
    : Computed Geometry :=
  match distance with
  | Num d => Ok (Geometry_buffer geometry d)
  | _ => Fault "Geometry.buffer: Parameter 'distance' is required."
  end.

(** [feature.intersection(geometry)] keeps the properties of the feature. *)
Definition Feature_intersection (feature : Feature Geometry)
    (right : Geometry) : Feature Geometry :=
  mkFeature (Geometry_intersection (Feature_geometry feature) right)
            (Feature_properties feature).

(** [collection.filterBounds(geometry)] *)
Definition FeatureCollection_filterBounds (c : list (Feature Geometry))
    (geometry : Geometry) : list (Feature Geometry) :=
  List.filter
    (fun feature => Geometry_intersects (Feature_geometry feature) geometry) c.

(** [ee.Filter.withinDistance(distance, '.geo', '.geo', maxError)]: the
    measure of a pair of features that pass, their distance. *)
Definition Filter_withinDistance (distance maxError : Q)
    (left right : Feature Geometry) : option Q :=
  let d := Geometry_distance (Feature_geometry left) (Feature_geometry right) in
  if Qle_bool d distance then Some d else None.

Definition better_match (best : option (Feature Geometry * Q))
    (candidate : Feature Geometry * Q) : option (Feature Geometry * Q) :=
  match best with
  | None => Some candidate
  | Some b => if Qle_bool (snd b) (snd candidate) then best else Some candidate
  end.

Definition best_match (condition : Feature Geometry -> Feature Geometry -> option Q)
    (primary : Feature Geometry) (secondary : list (Feature Geometry))
    : option (Feature Geometry * Q) :=
  foldl better_match None
    (omap (fun s => pair s <$> condition primary s) secondary).

(** [ee.Join.saveBest(matchKey, measureKey).apply(primary, secondary,
    condition)]: every primary element that has a match, with its best
    match and the measure saved as properties; a primary element without
    a match is dropped. *)
Definition Join_saveBest_apply (matchKey measureKey : string)
    (primary secondary : list (Feature Geometry))
    (condition : Feature Geometry -> Feature Geometry -> option Q)
    : list (Feature Geometry) :=
  flat_map
    (fun p =>
       match best_match condition p secondary with
       | Some (s, d) =>
           [Feature_set (Feature_set p matchKey (Feature_value s))
                        measureKey (Num d)]
       | None => []
       end)
    primary.
End Images.

(** Python's [name or band] on an optional string. *)
Definition py_or (name : option string) (band : string) : string :=
  match name with
  | Some n => if String.eqb n "" then band else n
  | None => band
  end.

(** ** [class RasterDataset] *)

Module RasterDataset.
Section WithService.
Context `{GeoCompute Geometry Raster}.

Inductive Snippet : Type :=
  | ee_Image (image : Image Raster)
  | ee_ImageCollection (collection : list (Image Raster)).

Record t : Type := mk {
    name : string;
    categorical : bool;
    map_params : gmap string (Value Geometry);
    data : Computed (Image Raster);
    band : string;
  }.

Definition __init__ (snippet : Snippet) (band : string)
    (name : option string) (categorical : bool)
    (map_params : gmap string (Value Geometry)) : t :=
  let self_name := py_or name band in
  let self_data :=
    match snippet with
    | ee_ImageCollection collection =>
        ImageCollection_mosaic <$>
          ImageCollection_select collection [band] [self_name]
    | ee_Image image => Image_select image [band] [self_name]
    end in
  mk self_name categorical map_params self_data self_name.

Definition distance (self : t) (geometry : Geometry)
    : Computed (Value Geometry) :=
  data ← data self;
  distance_image ←
    Image_select
      (Image_distance data (Kernel_euclidean 1000 "meters") false)
      [band self] ["distance"];
  Dictionary_get
    (Image_reduceRegion distance_image Reducer_mean geometry 100 1e9)
    "distance".

Definition mode (self : t) (geometry : Geometry)
    : Computed (Value Geometry) :=
  data ← data self;
  Dictionary_get
    (Image_reduceRegion data Reducer_mode geometry 100 1e9) (band self).

Definition median (self : t) (geometry : Geometry)
    : Computed (Value Geometry) :=
  data ← data self;
  Dictionary_get
    (Image_reduceRegion data Reducer_median geometry 100 1e9) (band self).

Definition get_sample_area_data (self : t) (sample_area : Feature Geometry)
    : Computed (Feature Geometry) :=
  distance ← distance self (Feature_geometry sample_area);
  geometry ←
    Algorithms_If (Ok distance)
      (Algorithms_If (Number_eq distance (Num 0))
         (Ok (Feature_geometry sample_area))
         (buffer (Feature_geometry sample_area) distance))
      (Ok (Feature_geometry sample_area));
  result ←
    Algorithms_If (Ok (@Bool Geometry (categorical self)))
      (mode self geometry)
      (median self geometry);
  Ok (Feature_set sample_area (band self) result).

(** The reduction of the dataset over a given geometry, attached to the
    sample area: what [get_sample_area_data] does once the geometry is
    chosen. *)
Definition reduce_over (self : t) (sample_area : Feature Geometry)
    (geometry : Geometry) : Computed (Feature Geometry) :=
  result ← (if categorical self then mode self geometry
            else median self geometry);
  Ok (Feature_set sample_area (band self) result).

(** The reducer of a dataset: the one [mode] uses for categorical data,
    the one [median] uses otherwise. *)
Definition statistic_of (categorical : bool) : Reducer :=
  if categorical then Reducer_mode else Reducer_median.
End WithService.
End RasterDataset.

(** ** [class VectorDataset] *)

Module VectorDataset.
Section WithService.
Context `{GeoCompute Geometry Raster}.

Record t : Type := mk {
    data : list (Feature Geometry);
    property : string;
    name : string;
    map_params : gmap string (Value Geometry);
  }.

Definition __init__ (snippet : list (Feature Geometry)) (property : string)
    (name : option string) (map_params : gmap string (Value Geometry)) : t :=
  mk snippet property (py_or name property) map_params.

Definition get_nearest_feature (self : t) (sample_area : Feature Geometry)
    : Computed (Value Geometry) :=
  let spatialFilter := Filter_withinDistance 10000 10 in
  let result :=
    FeatureCollection_first
      (Join_saveBest_apply "closestFeature" "distance"
         [sample_area] (data self) spatialFilter) in
  Element_get result "closestFeature".

Definition get_predominant_feature (self : t)
    (overlaps : list (Feature Geometry)) : Value Geometry :=
  let overlaps :=
    map (fun feature =>
           Feature_set feature "area"
             (Num (Geometry_area (Feature_geometry feature))))
        overlaps in
  let max_area := FeatureCollection_aggregate_max overlaps "area" in
  FeatureCollection_first (List.filter (Filter_gte "area" max_area) overlaps).

(** The measure of the join of [get_nearest_feature], and the features
    of a collection that pass its filter, each with its measure. *)
Definition distance_to (sample_area feature : Feature Geometry) : Q :=
  Geometry_distance (Feature_geometry sample_area) (Feature_geometry feature).

Definition candidates (sample_area : Feature Geometry)
    (l : list (Feature Geometry)) : list (Feature Geometry * Q) :=
  omap (fun s => pair s <$> Filter_withinDistance 10000 10 sample_area s) l.

(** An overlap with its area recorded, as [get_predominant_feature]
    builds it, and that area. *)
Definition with_area (feature : Feature Geometry) : Feature Geometry :=
  Feature_set feature "area" (Num (Geometry_area (Feature_geometry feature))).

Definition area_of (feature : Feature Geometry) : Q :=
  Geometry_area (Feature_geometry feature).

(** The collection of overlaps between the sample area and the dataset. *)
Definition overlaps_of (self : t) (sample_area : Feature Geometry)
    : list (Feature Geometry) :=
  map (fun feature =>
         Feature_intersection feature (Feature_geometry sample_area))
      (FeatureCollection_filterBounds (data self)
         (Feature_geometry sample_area)).

Definition get_sample_area_data (self : t) (sample_area : Feature Geometry)
    : Computed (Feature Geometry) :=
  let overlaps := overlaps_of self sample_area in
  Algorithms_If (Number_eq (FeatureCollection_size overlaps) (Num 1))
    (value ← Element_get (FeatureCollection_first overlaps) (property self);
     Ok (Feature_set sample_area (name self) value))
    (Algorithms_If (Number_eq (FeatureCollection_size overlaps) (Num 0))
       (nearest ← get_nearest_feature self sample_area;
        value ← Element_get nearest (property self);
        Ok (Feature_set sample_area (name self) value))
       (value ← Element_get (get_predominant_feature self overlaps)
                  (property self);
        Ok (Feature_set sample_area (name self) value))).
End WithService.
End VectorDataset.

(** ** [extractor.py]: building the sample areas *)

Module Extractor.
Record Sample : Type := mkSample {
    sample_id : string;
    longitude : Q;
    latitude : Q;
    sample_date : string;
    spatial_uncertainty : Q;
  }.



Section WithService.
Context `{GeoCompute Geometry Raster}.

Definition define_feature_for_sample_areas (samples : list Sample)
    (br : Q) : list (Feature Geometry) :=
  map (fun sample =>
         Feature_set
           (Feature_set
              (Feature_set
                 (Feature_set
                    (Feature_set
                       (mkFeature
                          (Geometry_buffer
                             (Geometry_Point (longitude sample)
                                             (latitude sample)) br)
                          ∅)
                       "name" (Str (sample_id sample)))
                    "sample_date" (Str (sample_date sample)))
                 "longitude" (Num (longitude sample)))
              "latitude" (Num (latitude sample)))
           "spatial_uncertainty" (Num (spatial_uncertainty sample)))
      samples.

End WithService.
End Extractor.

(** The two kinds of dataset behind the one entry point the extraction
    driver calls. *)
Module Dataset.
Section WithService.
Context `{GeoCompute Geometry Raster}.

Inductive t : Type :=
  | Raster_ (d : @RasterDataset.t Geometry Raster)
  | Vector_ (d : @VectorDataset.t Geometry).

(** The key under which the dataset attaches its value. *)
Definition key (d : t) : string :=
  match d with
  | Raster_ r => RasterDataset.band r
  | Vector_ v => VectorDataset.name v
  end.

Definition get_sample_area_data (d : t) (sample_area : Feature Geometry)
    : Computed (Feature Geometry) :=
  match d with
  | Raster_ r => RasterDataset.get_sample_area_data r sample_area
  | Vector_ v => VectorDataset.get_sample_area_data v sample_area
  end.
End WithService.
End Dataset.

(** ** The rule of the specification for the geometry to reduce

    [selects g d g']: with [d] the distance of the sample geometry [g] to
    the coverage, the geometry reduced is [g']. *)
Inductive selects `{GeoCompute Geometry Raster} (g : Geometry)
  : Value Geometry -> Geometry -> Prop :=
| selects_no_value : selects g Null g
| selects_covered d : d == 0 -> selects g (Num d) g
| selects_grown d : 0 < d -> selects g (Num d) (Geometry_buffer g d).

(** ** A service on a line

    A small instance of the service, used to run the code on concrete
    inputs: a geometry is a closed interval of the line, a raster band is
    the list of its valid pixels (position and value) on a 100-unit grid. *)
Module Line.
Definition Interval : Type := (Q * Q)%type.
Definition Pixels : Type := list (Q * Q).

Definition inside (g : Interval) (x : Q) : bool :=
  Qle_bool (fst g) x && Qle_bool x (snd g).

Definition Point (lon lat : Q) : Interval := (lon, lon).

Definition grow (g : Interval) (d : Q) : Interval :=
  (Qred (fst g - d), Qred (snd g + d)).

Definition meet (a b : Interval) : Interval :=
  (if Qle_bool (fst a) (fst b) then fst b else fst a,
   if Qle_bool (snd a) (snd b) then snd a else snd b).

Definition extent (g : Interval) : Q :=
  if Qle_bool (fst g) (snd g) then Qred (snd g - fst g) else 0.

Definition meets (a b : Interval) : bool :=
  Qle_bool (fst (meet a b)) (snd (meet a b)).

Definition gap (a b : Interval) : Q :=
  if meets a b then 0 else Qred (fst (meet a b) - snd (meet a b)).

Definition covers (r : Pixels) (g : Interval) : Prop :=
  existsb (fun p => inside g (fst p)) r = true.

Definition values_in (r : Pixels) (g : Interval) : list Q :=
  map snd (List.filter (fun p => inside g (fst p)) r).

Definition mean (l : list Q) : option Q :=
  match l with
  | [] => None
  | _ => Some (Qred (foldr Qplus 0 l / inject_Z (Z.of_nat (length l))))
  end.

Definition occurrences (x : Q) (l : list Q) : nat :=
  length (List.filter (Qeq_bool x) l).

Definition most_frequent (l : list Q) : option Q :=
  foldl (fun best x =>
           match best with
           | None => Some x
           | Some b =>
               if (occurrences b l <? occurrences x l)%nat then Some x
               else best
           end) None l.

Fixpoint insert_sorted (x : Q) (l : list Q) : list Q :=
  match l with
  | [] => [x]
  | y :: l' => if Qle_bool x y then x :: l else y :: insert_sorted x l'
  end.

Definition sort_values (l : list Q) : list Q :=
  foldr insert_sorted [] l.

(** the middle of the sorted values, the mean of the two middle ones for
    an even count *)
Definition middle (l : list Q) : option Q :=
  let sorted := sort_values l in
  let n := length sorted in
  if Nat.even n then
    match n with
    | O => None
    | _ =>
        a ← sorted !! (n / 2 - 1)%nat;
        b ← sorted !! (n / 2)%nat;
        Some ((a + b) / 2)
    end
  else sorted !! (n / 2)%nat.

Definition reduce (r : Pixels) (reducer : Reducer) (g : Interval)
    (scale maxPixels : Q) : option Q :=
  match reducer with
  | Reducer_mean => mean (values_in r g)
  | Reducer_mode => most_frequent (values_in r g)
  | Reducer_median => Qred <$> middle (values_in r g)
  end.

(** offsets of the grid positions within the radius of a kernel *)
Definition offsets (radius : Q) : list Q :=
  let k := Z.to_nat (Qfloor (radius / 100)) in
  List.filter (fun o => Qle_bool (Qabs o) radius)
    (map (fun i => 100 * (inject_Z (Z.of_nat i) - inject_Z (Z.of_nat k)))
         (seq 0 (2 * k + 1))).

Definition nearest (r : Pixels) (x : Q) : Q :=
  Qred (foldr (fun p best =>
                 let d := Qabs (x - fst p) in
                 if Qle_bool d best then d else best)
              (Qabs (x - default 0 (fst <$> head r))) r).

Definition distance (r : Pixels) (kernel : Kernel) (skipMasked : bool)
    : Pixels :=
  flat_map (fun p =>
              map (fun o => (Qred (fst p + o), nearest r (fst p + o)))
                  (offsets (radius kernel)))
           r.

(** later tiles on top *)
Definition mosaic (tiles : list Pixels) : Pixels :=
  foldl (fun below tile =>
           tile ++ List.filter
                     (fun p => negb (existsb (fun q => Qeq_bool (fst q) (fst p)) tile))
                     below)
        [] tiles.

#[global] Instance service : GeoCompute Interval Pixels := {
    Geometry_Point := Point;
    Geometry_buffer := grow;
    Geometry_intersection := meet;
    Geometry_area := extent;
    Geometry_intersects := meets;
    Geometry_distance := gap;
    Raster_mosaic := mosaic;
    Raster_distance := distance;
    Raster_reduce := reduce;
    Raster_covers := covers;
  }.
End Line.

(** ** Concrete inputs on the line *)
Module Scenario.
Import Line.

Definition elevation_pixels : Pixels :=
  [(0, 10); (100, 12); (200, 12); (300, 20); (400, 30); (500, 12)].

Definition terrain : Image Pixels :=
  [("elevation", elevation_pixels); ("slope", [(0, 1); (100, 2)])].

Definition elevation : RasterDataset.t :=
  RasterDataset.__init__ (RasterDataset.ee_Image terrain)
    "elevation" None false ∅.

Definition elevation_class : RasterDataset.t :=
  RasterDataset.__init__ (RasterDataset.ee_Image terrain)
    "elevation" (Some "class") true ∅.

Definition area_of (lo hi : Q) (id : string) : Feature Interval :=
  mkFeature (lo, hi) {[ "name" := Str id ]}.

Definition inside_area : Feature Interval := area_of 100 300 "S1".
Definition near_area : Feature Interval := area_of 700 800 "S2".
Definition far_area : Feature Interval := area_of 5000 5100 "S3".

Definition region (lo hi : Q) (eco : string) (surface : Q)
    : Feature Interval :=
  mkFeature (lo, hi) {[ "eco" := Str eco; "area" := Num surface;
                        "name" := Str eco ]}.

Definition regions : list (Feature Interval) :=
  [region 0 1000 "forest" 1000; region 1000 2000 "desert" 1000;
   region 2000 2500 "tundra" 500].

Definition ecoregion : VectorDataset.t :=
  VectorDataset.__init__ regions "eco" None ∅.
Definition region_surface : VectorDataset.t :=
  VectorDataset.__init__ regions "area" (Some "surface") ∅.
Definition region_name : VectorDataset.t :=
  VectorDataset.__init__ regions "name" None ∅.
Definition region_name_dataset : @Dataset.t Interval Pixels :=
  Dataset.Vector_ region_name.
Definition elevation_dataset : @Dataset.t Interval Pixels :=
  Dataset.Raster_ elevation.

Definition straddling_area : Feature Interval := area_of 900 1300 "S4".
Definition touching_area : Feature Interval := area_of 1000 1200 "S5".
Definition remote_area : Feature Interval := area_of 50000 50100 "S6".
Definition nearby_area : Feature Interval := area_of 3000 3100 "S7".

Definition samples : list Extractor.Sample :=
  [Extractor.mkSample "A" 100 34 "2021-03-01" 10;
   Extractor.mkSample "B" 700 35 "2021-04-01" 300;
   Extractor.mkSample "C" 5000 36 "2021-05-01" 50].

(** the area built for the first sample, with a radius of 50 *)
Definition first_sample_area : Feature Interval :=
  default inside_area
    (head (Extractor.define_feature_for_sample_areas samples 50)).

(** two tiles of one band, the second on top *)
Definition west_tile : Image Pixels := [("NDVI", [(0, 1); (100, 2)])].
Definition east_tile : Image Pixels := [("NDVI", [(100, 5); (200, 6)])].

Definition bare_tile : Image Pixels := [("EVI", [(0, 1)])].

(** three overlaps, the last two of the same, largest, area *)
Definition small_overlap : Feature Interval := region 0 100 "forest" 1000.
Definition first_large_overlap : Feature Interval := region 0 300 "desert" 1000.
Definition second_large_overlap : Feature Interval := region 100 400 "tundra" 500.
End Scenario.

(** * Properties *)

(** ** Evaluation *)

Lemma bind_Ok {A B} (k : A -> Computed B) (a : A) : (Ok a ≫= k) = k a.
Proof. reflexivity. Qed.


Lemma bind_Ok_inv {A B} (k : A -> Computed B) (c : Computed A) (b : B) :
  (c ≫= k) = Ok b -> exists a, c = Ok a /\ k a = Ok b.
Proof. destruct c as [a|msg]; [eauto | discriminate]. Qed.

Lemma Algorithms_If_Ok {Geometry A} (c : Value Geometry)
    (trueCase falseCase : Computed A) :
  Algorithms_If (Ok c) trueCase falseCase
  = if truthy c then trueCase else falseCase.
Proof. reflexivity. Qed.

Lemma truthy_Num {Geometry} (q : Q) :
  truthy (@Num Geometry q) = false <-> q == 0.
Proof.
  simpl. rewrite negb_false_iff. apply Qeq_bool_iff.
Qed.

Lemma truthy_Num_nonzero {Geometry} (q : Q) :
  ~ q == 0 -> truthy (@Num Geometry q) = true.
Proof.
  intros Hq. destruct (truthy (@Num Geometry q)) eqn:E; [reflexivity|].
  apply truthy_Num in E. contradiction.
Qed.

(** [size().eq(n)] as a condition compares the length with [n]. *)
Lemma size_eq_condition {Geometry A} (c : list (Feature Geometry)) (n : nat)
    (trueCase falseCase : Computed A) :
  Algorithms_If
    (Number_eq (FeatureCollection_size c) (Num (inject_Z (Z.of_nat n))))
    trueCase falseCase
  = if Nat.eqb (length c) n then trueCase else falseCase.
Proof.
  unfold Algorithms_If, FeatureCollection_size, Number_eq.
  rewrite bind_Ok.
  destruct (Nat.eqb (length c) n) eqn:E.
  - apply Nat.eqb_eq in E. rewrite E.
    assert (Hq : Qeq_bool (inject_Z (Z.of_nat n)) (inject_Z (Z.of_nat n)) = true)
      by (apply Qeq_bool_iff; reflexivity).
    rewrite Hq. reflexivity.
  - apply Nat.eqb_neq in E.
    assert (Hq : Qeq_bool (inject_Z (Z.of_nat (length c)))
                          (inject_Z (Z.of_nat n)) = false).
    { destruct (Qeq_bool _ _) eqn:Hb; [|reflexivity].
      apply Qeq_bool_iff in Hb. unfold Qeq in Hb. simpl in Hb. lia. }
    rewrite Hq. reflexivity.
Qed.

(** ** [RasterDataset] *)

Module RasterSpec.
Section WithService.
Context `{GeoCompute Geometry Raster}.
Implicit Types (self : @RasterDataset.t Geometry Raster).
Implicit Types (sample_area : Feature Geometry).

(** The body of [get_sample_area_data] after the statistic is chosen. *)
Lemma get_sample_area_data_eq self sample_area :
  RasterDataset.get_sample_area_data self sample_area
  = (distance ← RasterDataset.distance self (Feature_geometry sample_area);
     geometry ←
       (if truthy distance then
          Algorithms_If (Number_eq distance (Num 0))
            (Ok (Feature_geometry sample_area))
            (buffer (Feature_geometry sample_area) distance)
        else Ok (Feature_geometry sample_area));
     RasterDataset.reduce_over self sample_area geometry).
Proof.
  unfold RasterDataset.get_sample_area_data, RasterDataset.reduce_over.
  destruct (RasterDataset.distance self _) as [d|msg]; [|reflexivity].
  rewrite !bind_Ok, Algorithms_If_Ok.
  destruct (if truthy d then _ else _) as [g|msg]; [|reflexivity].
  rewrite !bind_Ok, Algorithms_If_Ok. reflexivity.
Qed.

(** C1. The geometry reduced is chosen by the distance of the sample
    geometry to the coverage: the sample geometry itself when the
    distance is "no value" or zero, the sample geometry buffered by [d]
    when the distance is a strictly positive [d]. *)
Theorem geometry_selection self sample_area d g' :
  RasterDataset.distance self (Feature_geometry sample_area) = Ok d ->
  selects (Feature_geometry sample_area) d g' ->
  RasterDataset.get_sample_area_data self sample_area
  = RasterDataset.reduce_over self sample_area g'.
Proof.
  intros Hd Hsel. rewrite get_sample_area_data_eq, Hd, bind_Ok.
  inversion Hsel as [ | q Hq | q Hq ]; subst.
  - reflexivity.
  - apply (truthy_Num (Geometry := Geometry)) in Hq. rewrite Hq. reflexivity.
  - rewrite truthy_Num_nonzero by lra.
    unfold Number_eq.
    assert (Hz : Qeq_bool q 0 = false).
    { destruct (Qeq_bool q 0) eqn:E; [|reflexivity].
      apply Qeq_bool_iff in E. lra. }
    rewrite Hz. reflexivity.
Qed.


(** *** A dataset over one band *)

Lemma Image_band_head (b : string) (r : Raster) (img : Image Raster) :
  Image_band ((b, r) :: img) b = Some r.
Proof. unfold Image_band. simpl. rewrite String.eqb_refl. reflexivity. Qed.

Lemma Image_select_single (img : Image Raster) (b n : string) :
  Image_select img [b] [n]
  = match Image_band img b with
    | Some r => Ok [(n, r)]
    | None => Fault "Image.select: Pattern did not match any bands."
    end.
Proof. simpl. destruct (Image_band img b); reflexivity. Qed.

Lemma reduceRegion_single (b : string) (r : Raster) reducer
    (g : Geometry) scale maxPixels :
  Dictionary_get (Image_reduceRegion [(b, r)] reducer g scale maxPixels) b
  = Ok (of_option (Raster_reduce r reducer g scale maxPixels)).
Proof.
  unfold Dictionary_get, Image_reduceRegion. simpl.
  rewrite lookup_insert_eq. reflexivity.
Qed.

Lemma distance_single self r g :
  RasterDataset.data self = Ok [(RasterDataset.band self, r)] ->
  RasterDataset.distance self g
  = Ok (of_option
          (Raster_reduce
             (Raster_distance r (Kernel_euclidean 1000 "meters") false)
             Reducer_mean g 100 1e9)).
Proof.
  intros Hdata. unfold RasterDataset.distance. rewrite Hdata, bind_Ok.
  rewrite Image_select_single. simpl Image_distance.
  rewrite Image_band_head, bind_Ok. apply reduceRegion_single.
Qed.

Lemma mode_single self r g :
  RasterDataset.data self = Ok [(RasterDataset.band self, r)] ->
  RasterDataset.mode self g
  = Ok (of_option (Raster_reduce r Reducer_mode g 100 1e9)).
Proof.
  intros Hdata. unfold RasterDataset.mode. rewrite Hdata, bind_Ok.
  apply reduceRegion_single.
Qed.

Lemma median_single self r g :
  RasterDataset.data self = Ok [(RasterDataset.band self, r)] ->
  RasterDataset.median self g
  = Ok (of_option (Raster_reduce r Reducer_median g 100 1e9)).
Proof.
  intros Hdata. unfold RasterDataset.median. rewrite Hdata, bind_Ok.
  apply reduceRegion_single.
Qed.

(** The constructor exposes the requested band of an image, under the
    name of the dataset. *)
Lemma init_image_data image b n categorical map_params r :
  Image_band image b = Some r ->
  let self := RasterDataset.__init__ (RasterDataset.ee_Image image)
                b n categorical map_params in
  RasterDataset.data self = Ok [(RasterDataset.band self, r)].
Proof.
  intros Hb. simpl. destruct (Image_band image b); congruence.
Qed.

(** C4. The statistic applied is fixed by the flag given to the
    constructor.  For a dataset constructed with [categorical = True] the
    value attached is the result of the mode reducer, for one constructed
    with [categorical = False] the result of the median reducer: of the
    band the dataset exposes, at scale 100, over the geometry chosen for
    the sample area, whatever the sample area. *)
Theorem statistic_by_categorical snippet band name categorical map_params
    r sample_area d g' :
  let self := RasterDataset.__init__ snippet band name categorical map_params in
  RasterDataset.data self = Ok [(py_or name band, r)] ->
  RasterDataset.distance self (Feature_geometry sample_area) = Ok d ->
  selects (Feature_geometry sample_area) d g' ->
  RasterDataset.get_sample_area_data self sample_area
  = Ok (Feature_set sample_area (py_or name band)
          (of_option
             (Raster_reduce r
                (if categorical then Reducer_mode else Reducer_median)
                g' 100 1e9))).
Proof.
  intros self Hdata Hd Hsel.
  assert (Hgeometry :
    RasterDataset.get_sample_area_data self sample_area
    = RasterDataset.reduce_over self sample_area g').
  { rewrite get_sample_area_data_eq, Hd, bind_Ok.
    inversion Hsel as [ | q Hq | q Hq ]; subst.
    - reflexivity.
    - apply (truthy_Num (Geometry := Geometry)) in Hq. rewrite Hq.
      reflexivity.
    - rewrite truthy_Num_nonzero by lra.
      unfold Number_eq.
      assert (Hz : Qeq_bool q 0 = false).
      { destruct (Qeq_bool q 0) eqn:E; [|reflexivity].
        apply Qeq_bool_iff in E. lra. }
      rewrite Hz. reflexivity. }
  rewrite Hgeometry. unfold RasterDataset.reduce_over.
  rewrite (mode_single self r), (median_single self r) by exact Hdata.
  subst self. simpl. destruct categorical; reflexivity.
Qed.

Section WithLaws.
Context `{!GeoComputeLaws}.


Lemma init_collection_single image b n categorical map_params :
  RasterDataset.__init__ (RasterDataset.ee_ImageCollection [image])
    b n categorical map_params
  = RasterDataset.__init__ (RasterDataset.ee_Image image)
      b n categorical map_params.
Proof.
  unfold RasterDataset.__init__. f_equal.
  unfold ImageCollection_select. simpl mapM.
  rewrite Image_select_single.
  destruct (Image_band image b) as [r|]; [|reflexivity].
  simpl. rewrite Image_band_head. simpl.
  rewrite mosaic_single. reflexivity.
Qed.

(** C6. A dataset built from an image and a dataset built from the
    collection holding only that image, with the same band, name and
    categorical flag, give the same result on every sample area. *)
Theorem image_or_singleton_collection image b n categorical map_params
    sample_area :
  RasterDataset.get_sample_area_data
    (RasterDataset.__init__ (RasterDataset.ee_Image image)
       b n categorical map_params) sample_area
  = RasterDataset.get_sample_area_data
      (RasterDataset.__init__ (RasterDataset.ee_ImageCollection [image])
         b n categorical map_params) sample_area.
Proof. rewrite init_collection_single. reflexivity. Qed.
End WithLaws.
End WithService.
End RasterSpec.

(** ** The service on a line satisfies the laws *)

Module LineFacts.
Import Line.

Lemma inside_iff (g : Interval) (x : Q) :
  inside g x = true <-> fst g <= x /\ x <= snd g.
Proof.
  unfold inside. rewrite andb_true_iff, !Qle_bool_iff. reflexivity.
Qed.

Lemma inside_grow (g : Interval) (d x y : Q) :
  Qabs (y - x) <= d -> inside g y = true -> inside (grow g d) x = true.
Proof.
  rewrite !inside_iff. unfold grow. cbn [fst snd]. rewrite !Qred_correct.
  intros Habs [Hlo Hhi]. apply Qabs_Qle_condition in Habs.
  destruct Habs as [Hl Hu]. split; lra.
Qed.

Lemma no_pixel_inside (r : Pixels) (g : Interval) :
  ~ covers r g -> values_in r g = [].
Proof.
  unfold covers, values_in. intros Hno.
  induction r as [|p r IH]; [reflexivity|].
  simpl in *. destruct (inside g (fst p)); [exfalso; auto|]. auto.
Qed.

Lemma covers_exists (r : Pixels) (g : Interval) :
  covers r g <-> exists p, In p r /\ inside g (fst p) = true.
Proof. unfold covers. apply existsb_exists. Qed.

Lemma offsets_bound (radius o : Q) : In o (offsets radius) -> Qabs o <= radius.
Proof.
  unfold offsets. intros Hin. apply filter_In in Hin.
  destruct Hin as [_ Hle]. apply Qle_bool_iff in Hle. exact Hle.
Qed.

Lemma distance_pixel_origin (r : Pixels) (kernel : Kernel)
    (skipMasked : bool) (c : Q * Q) :
  In c (distance r kernel skipMasked) ->
  exists p, In p r /\ Qabs (fst c - fst p) <= radius kernel.
Proof.
  unfold distance. intros Hin. apply in_flat_map in Hin.
  destruct Hin as [p [Hp Hc]]. apply in_map_iff in Hc.
  destruct Hc as [o [<- Ho]]. exists p. split; [exact Hp|].
  cbn [fst]. apply offsets_bound in Ho.
  assert (Heq : Qred (fst p + o) - fst p == o)
    by (rewrite Qred_correct; ring).
  rewrite Heq. exact Ho.
Qed.

Lemma mosaic_one (r : Pixels) : mosaic [r] = r.
Proof. unfold mosaic. simpl. apply app_nil_r. Qed.

#[global] Instance laws : GeoComputeLaws (H := service).
Proof.
  split.
  - intros r reducer g scale maxPixels Hno. simpl. unfold reduce.
    rewrite (no_pixel_inside r g Hno). destruct reducer; reflexivity.
  - intros r g d Hd Hc. simpl in *. apply covers_exists in Hc.
    destruct Hc as [p [Hp Hin]]. apply covers_exists. exists p.
    split; [exact Hp|]. apply (inside_grow g d _ (fst p)); [|exact Hin].
    assert (Hz : fst p - fst p == 0) by ring.
    rewrite Hz. simpl. exact Hd.
  - intros r g d skipMasked Hd Hfar Hc. simpl in *. apply Hfar.
    apply covers_exists in Hc. destruct Hc as [c [Hc Hin]].
    apply distance_pixel_origin in Hc. destruct Hc as [p [Hp Habs]].
    apply covers_exists. exists p. split; [exact Hp|].
    apply (inside_grow g d _ (fst c)); assumption.
  - intros r. apply mosaic_one.
Qed.
End LineFacts.

(** ** [VectorDataset] *)

Lemma Qle_bool_false (a b : Q) : Qle_bool a b = false <-> b < a.
Proof.
  split.
  - intros Hf. apply Qnot_le_lt. intros Hle.
    apply Qle_bool_iff in Hle. congruence.
  - intros Hlt. destruct (Qle_bool a b) eqn:E; [|reflexivity].
    apply Qle_bool_iff in E. lra.
Qed.

(** The running maximum is an element of the list and bounds it. *)
Lemma foldl_Qmax_opt (l : list Q) (m0 : Q) :
  exists m, foldl Qmax_opt (Some m0) l = Some m
            /\ (m = m0 \/ In m l) /\ m0 <= m /\ (forall a, In a l -> a <= m).
Proof.
  revert m0. induction l as [|x l IH]; intros m0.
  - exists m0. simpl. repeat split; auto; try lra. intros a [].
  - simpl. destruct (Qle_bool m0 x) eqn:E.
    + apply Qle_bool_iff in E.
      destruct (IH x) as [m [Hm [Hin [Hle Hall]]]].
      exists m. repeat split; [exact Hm| |lra|].
      * destruct Hin as [->|Hin]; auto.
      * intros a [<-|Ha]; auto.
    + apply Qle_bool_false in E.
      destruct (IH m0) as [m [Hm [Hin [Hle Hall]]]].
      exists m. repeat split; [exact Hm| |lra|].
      * destruct Hin as [->|Hin]; auto.
      * intros a [<-|Ha]; [lra|auto].
Qed.

Module VectorSpec.
Section WithService.
Context `{GeoCompute Geometry Raster}.
Implicit Types (self : @VectorDataset.t Geometry).
Implicit Types (sample_area feature : Feature Geometry).
Abbreviation with_area := VectorDataset.with_area.
Abbreviation area_of := VectorDataset.area_of.
Abbreviation distance_to := VectorDataset.distance_to.
Abbreviation candidates := VectorDataset.candidates.

Lemma number_property_with_area feature :
  number_property "area" (with_area feature) = Some (area_of feature).
Proof.
  unfold number_property, VectorDataset.with_area, Feature_set. simpl.
  rewrite lookup_insert_eq. reflexivity.
Qed.

Lemma areas_recorded (l : list (Feature Geometry)) :
  omap (number_property "area") (map with_area l) = map area_of l.
Proof.
  induction l as [|f l IH]; [reflexivity|].
  rewrite !map_cons. cbn [omap list_omap].
  rewrite number_property_with_area, <- IH. reflexivity.
Qed.

Lemma aggregate_max_area (f : Feature Geometry) (l : list (Feature Geometry)) :
  exists m, FeatureCollection_aggregate_max (map with_area (f :: l)) "area"
            = Num m
            /\ In m (map area_of (f :: l))
            /\ (forall a, In a (map area_of (f :: l)) -> a <= m).
Proof.
  unfold FeatureCollection_aggregate_max. rewrite areas_recorded.
  simpl map. simpl foldl.
  destruct (foldl_Qmax_opt (map area_of l) (area_of f))
    as [m [Hm [Hin [Hle Hall]]]].
  exists m. rewrite Hm. repeat split.
  - destruct Hin as [->|Hin]; [left; reflexivity | right; exact Hin].
  - intros a [<-|Ha]; auto.
Qed.

Lemma filter_gte_below (m : Q) (l : list (Feature Geometry)) :
  (forall g, In g l -> area_of g < m) ->
  List.filter (Filter_gte "area" (Num m)) (map with_area l) = [].
Proof.
  induction l as [|g l IH]; intros Hlt; [reflexivity|].
  simpl. unfold Filter_gte at 1. rewrite number_property_with_area.
  assert (Hg : Qle_bool m (area_of g) = false).
  { apply Qle_bool_false. apply Hlt. left. reflexivity. }
  rewrite Hg. apply IH. intros g' Hg'. apply Hlt. right. exact Hg'.
Qed.

Lemma first_maximal_overlap self
    (before : list (Feature Geometry)) feature
    (after : list (Feature Geometry)) :
  (forall g, In g before -> area_of g < area_of feature) ->
  (forall g, In g after -> area_of g <= area_of feature) ->
  VectorDataset.get_predominant_feature self (before ++ feature :: after)
  = Feature_value (with_area feature).
Proof.
  intros Hbefore Hafter.
  unfold VectorDataset.get_predominant_feature.
  change (fun feature0 : Feature Geometry =>
            Feature_set feature0 "area"
              (Num (Geometry_area (Feature_geometry feature0))))
    with (@VectorDataset.with_area Geometry Raster _).
  assert (Hmax : exists m,
    FeatureCollection_aggregate_max
      (map with_area (before ++ feature :: after)) "area" = Num m
    /\ m == area_of feature).
  { destruct (before ++ feature :: after) as [|f0 l0] eqn:El.
    { destruct before; discriminate. }
    destruct (aggregate_max_area f0 l0) as [m [Hm [Hin Hall]]].
    exists m. split; [exact Hm|]. rewrite <- El in Hin, Hall.
    apply Qle_antisym.
    - apply in_map_iff in Hin. destruct Hin as [g [<- Hg]].
      apply in_app_or in Hg. destruct Hg as [Hg|[<-|Hg]].
      + apply Qlt_le_weak. auto.
      + lra.
      + auto.
    - apply Hall. apply in_map_iff. exists feature.
      split; [reflexivity|]. apply in_or_app. right. left. reflexivity. }
  destruct Hmax as [m [-> Hm]].
  rewrite map_app, List.filter_app. simpl map.
  rewrite filter_gte_below.
  2:{ intros g Hg. rewrite Hm. auto. }
  simpl. unfold Filter_gte at 1. rewrite number_property_with_area.
  assert (Hf : Qle_bool m (area_of feature) = true).
  { apply Qle_bool_iff. lra. }
  rewrite Hf. reflexivity.
Qed.

(** C9. The feature returned is the first one, in the order of the
    collection, whose area is the maximum: with every earlier overlap
    strictly smaller and every later one at most as large (ties
    included), the result is that overlap, with its area recorded.  The
    result is a function of the collection alone. *)
Theorem predominant_is_first_maximal self
    (before : list (Feature Geometry)) feature
    (after : list (Feature Geometry)) :
  (forall g, In g before -> area_of g < area_of feature) ->
  (forall g, In g after -> area_of g <= area_of feature) ->
  VectorDataset.get_predominant_feature self (before ++ feature :: after)
  = Feature_value (with_area feature)
  /\ forall self',
     VectorDataset.get_predominant_feature self' (before ++ feature :: after)
     = VectorDataset.get_predominant_feature self (before ++ feature :: after).
Proof.
  intros Hbefore Hafter. split; [|reflexivity].
  apply first_maximal_overlap; assumption.
Qed.

(** The three branches, by the number of overlaps. *)
Lemma get_sample_area_data_cases self sample_area :
  VectorDataset.get_sample_area_data self sample_area
  = match VectorDataset.overlaps_of self sample_area with
    | [] =>
        nearest ← VectorDataset.get_nearest_feature self sample_area;
        value ← Element_get nearest (VectorDataset.property self);
        Ok (Feature_set sample_area (VectorDataset.name self) value)
    | [only] =>
        value ← Element_get (Feature_value only) (VectorDataset.property self);
        Ok (Feature_set sample_area (VectorDataset.name self) value)
    | overlaps =>
        value ← Element_get
                  (VectorDataset.get_predominant_feature self overlaps)
                  (VectorDataset.property self);
        Ok (Feature_set sample_area (VectorDataset.name self) value)
    end.
Proof.
  unfold VectorDataset.get_sample_area_data.
  change (@Num Geometry 1) with (@Num Geometry (inject_Z (Z.of_nat 1))).
  change (@Num Geometry 0) with (@Num Geometry (inject_Z (Z.of_nat 0))).
  rewrite !size_eq_condition.
  destruct (VectorDataset.overlaps_of self sample_area) as [|f [|f' l]];
    reflexivity.
Qed.

Lemma overlaps_length self sample_area :
  length (VectorDataset.overlaps_of self sample_area)
  = length (FeatureCollection_filterBounds (VectorDataset.data self)
              (Feature_geometry sample_area)).
Proof. unfold VectorDataset.overlaps_of. apply length_map. Qed.

Lemma filterBounds_none (c : list (Feature Geometry)) (g : Geometry) :
  (forall f, In f c -> Geometry_intersects (Feature_geometry f) g = false) ->
  FeatureCollection_filterBounds c g = [].
Proof.
  unfold FeatureCollection_filterBounds.
  induction c as [|f c IH]; intros Hno; [reflexivity|].
  simpl. rewrite (Hno f (or_introl eq_refl)).
  apply IH. intros f' Hf'. apply Hno. right. exact Hf'.
Qed.

Lemma no_candidate_no_match
    (condition : Feature Geometry -> Feature Geometry -> option Q)
    (primary : Feature Geometry) (secondary : list (Feature Geometry)) :
  (forall s, In s secondary -> condition primary s = None) ->
  best_match condition primary secondary = None.
Proof.
  unfold best_match. intros Hno.
  assert (Hnil : omap (fun s => pair s <$> condition primary s) secondary = []).
  { induction secondary as [|s l IH]; [reflexivity|].
    cbn [omap list_omap]. rewrite (Hno s (or_introl eq_refl)). simpl.
    apply IH. intros s' Hs'. apply Hno. right. exact Hs'. }
  rewrite Hnil. reflexivity.
Qed.

(** C3, as the code behaves: with no overlapping feature and no feature of
    the layer within 10000 units, the join has no row, its first element is
    null, and reading [closestFeature] from it is rejected: the call
    faults instead of attaching "no value". *)
Theorem no_match_faults self sample_area :
  (forall f, In f (VectorDataset.data self) ->
     Geometry_intersects (Feature_geometry f) (Feature_geometry sample_area)
     = false) ->
  (forall f, In f (VectorDataset.data self) ->
     10000 < Geometry_distance (Feature_geometry sample_area)
                               (Feature_geometry f)) ->
  VectorDataset.get_sample_area_data self sample_area
  = Fault "Element.get: Parameter 'object' is required.".
Proof.
  intros Hdisjoint Hfar. rewrite get_sample_area_data_cases.
  unfold VectorDataset.overlaps_of.
  rewrite filterBounds_none by assumption. simpl map. cbv iota.
  unfold VectorDataset.get_nearest_feature, Join_saveBest_apply.
  simpl flat_map. rewrite no_candidate_no_match; [reflexivity|].
  intros s Hs. unfold Filter_withinDistance.
  assert (Hgt : Qle_bool (Geometry_distance (Feature_geometry sample_area)
                            (Feature_geometry s)) 10000 = false).
  { apply Qle_bool_false. auto. }
  rewrite Hgt. reflexivity.
Qed.

Lemma two_elements_length {A} (l : list A) (x y : A) :
  In x l -> In y l -> x <> y -> (2 <= length l)%nat.
Proof.
  destruct l as [|a [|b l]]; simpl; intros Hx Hy Hne.
  - contradiction.
  - destruct Hx as [<-|[]]. destruct Hy as [<-|[]]. contradiction.
  - lia.
Qed.

(** C10. The branch is chosen by the number of features of the layer that
    intersect the sample geometry, whatever the area of the intersection:
    a feature that intersects with zero area together with a feature that
    overlaps with positive area sends the call to the predominant-feature
    branch. *)
Theorem overlap_count_ignores_area self sample_area touching overlapping :
  In touching (VectorDataset.data self) ->
  In overlapping (VectorDataset.data self) ->
  Geometry_intersects (Feature_geometry touching)
    (Feature_geometry sample_area) = true ->
  Geometry_intersects (Feature_geometry overlapping)
    (Feature_geometry sample_area) = true ->
  area_of (Feature_intersection touching (Feature_geometry sample_area)) == 0 ->
  0 < area_of (Feature_intersection overlapping (Feature_geometry sample_area)) ->
  FeatureCollection_size (VectorDataset.overlaps_of self sample_area)
  = Num (inject_Z (Z.of_nat (length
       (List.filter
          (fun f => Geometry_intersects (Feature_geometry f)
                      (Feature_geometry sample_area))
          (VectorDataset.data self)))))
  /\ (2 <= length (VectorDataset.overlaps_of self sample_area))%nat
  /\ VectorDataset.get_sample_area_data self sample_area
     = (value ← Element_get
                  (VectorDataset.get_predominant_feature self
                     (VectorDataset.overlaps_of self sample_area))
                  (VectorDataset.property self);
        Ok (Feature_set sample_area (VectorDataset.name self) value)).
Proof.
  intros Ht Ho Hti Hoi Hzero Hpos.
  assert (Hlen : (2 <= length (VectorDataset.overlaps_of self sample_area))%nat).
  { rewrite overlaps_length. unfold FeatureCollection_filterBounds.
    apply (two_elements_length _ touching overlapping).
    - apply filter_In. auto.
    - apply filter_In. auto.
    - intros ->. lra. }
  split; [|split; [exact Hlen|]].
  - unfold FeatureCollection_size. rewrite overlaps_length. reflexivity.
  - rewrite get_sample_area_data_cases.
    destruct (VectorDataset.overlaps_of self sample_area) as [|f [|f' l]];
      simpl in Hlen; try lia. reflexivity.
Qed.

(** The value attached in the predominant-feature branch is read from the
    first maximal overlap after its area has been recorded on it. *)
Lemma predominant_value self sample_area
    (before : list (Feature Geometry)) feature
    (after : list (Feature Geometry)) :
  FeatureCollection_filterBounds (VectorDataset.data self)
    (Feature_geometry sample_area) = before ++ feature :: after ->
  (2 <= length (before ++ feature :: after))%nat ->
  let overlap f := Feature_intersection f (Feature_geometry sample_area) in
  (forall g, In g before -> area_of (overlap g) < area_of (overlap feature)) ->
  (forall g, In g after -> area_of (overlap g) <= area_of (overlap feature)) ->
  VectorDataset.get_sample_area_data self sample_area
  = Ok (Feature_set sample_area (VectorDataset.name self)
          (Feature_get (with_area (overlap feature))
             (VectorDataset.property self))).
Proof.
  intros Hfilter Hlen overlap Hbefore Hafter.
  rewrite get_sample_area_data_cases.
  assert (Hov : VectorDataset.overlaps_of self sample_area
                = map overlap before ++ overlap feature :: map overlap after).
  { unfold VectorDataset.overlaps_of. rewrite Hfilter, map_app. reflexivity. }
  assert (Hlen' : (2 <= length (VectorDataset.overlaps_of self sample_area))%nat).
  { rewrite overlaps_length, Hfilter. exact Hlen. }
  destruct (VectorDataset.overlaps_of self sample_area) as [|f [|f' l]] eqn:E;
    simpl in Hlen'; try lia.
  rewrite Hov.
  rewrite (first_maximal_overlap self (map overlap before)
             (overlap feature) (map overlap after)).
  - reflexivity.
  - intros g Hg. apply in_map_iff in Hg. destruct Hg as [g0 [<- Hg0]]. auto.
  - intros g Hg. apply in_map_iff in Hg. destruct Hg as [g0 [<- Hg0]]. auto.
Qed.

(** When the property of the dataset is not the key ["area"] that the
    branch itself writes, that value is the property of the layer feature
    whose overlap is the first maximal one. *)
Lemma predominant_property self sample_area
    (before : list (Feature Geometry)) feature
    (after : list (Feature Geometry)) :
  VectorDataset.property self <> "area" ->
  FeatureCollection_filterBounds (VectorDataset.data self)
    (Feature_geometry sample_area) = before ++ feature :: after ->
  (2 <= length (before ++ feature :: after))%nat ->
  let overlap f := Feature_intersection f (Feature_geometry sample_area) in
  (forall g, In g before -> area_of (overlap g) < area_of (overlap feature)) ->
  (forall g, In g after -> area_of (overlap g) <= area_of (overlap feature)) ->
  VectorDataset.get_sample_area_data self sample_area
  = Ok (Feature_set sample_area (VectorDataset.name self)
          (Feature_get feature (VectorDataset.property self))).
Proof.
  intros Hprop Hfilter Hlen overlap Hbefore Hafter.
  rewrite (predominant_value self sample_area before feature after)
    by assumption.
  unfold Feature_get, VectorDataset.with_area, Feature_set. simpl.
  rewrite lookup_insert_ne by congruence. reflexivity.
Qed.

(** C2, where the code departs from it: when the property of the dataset
    is the key ["area"], the value attached in the branch for several
    overlaps is the area of the largest overlap, which the branch has
    written over the feature's own ["area"] property, and not the value
    of that property. *)
Theorem predominant_area_is_overwritten self sample_area
    (before : list (Feature Geometry)) feature
    (after : list (Feature Geometry)) :
  VectorDataset.property self = "area" ->
  FeatureCollection_filterBounds (VectorDataset.data self)
    (Feature_geometry sample_area) = before ++ feature :: after ->
  (2 <= length (before ++ feature :: after))%nat ->
  let overlap f := Feature_intersection f (Feature_geometry sample_area) in
  (forall g, In g before -> area_of (overlap g) < area_of (overlap feature)) ->
  (forall g, In g after -> area_of (overlap g) <= area_of (overlap feature)) ->
  VectorDataset.get_sample_area_data self sample_area
  = Ok (Feature_set sample_area (VectorDataset.name self)
          (Num (area_of (overlap feature)))).
Proof.
  intros Hprop Hfilter Hlen overlap Hbefore Hafter.
  rewrite (predominant_value self sample_area before feature after)
    by assumption.
  unfold Feature_get, VectorDataset.with_area, Feature_set. simpl.
  rewrite Hprop, lookup_insert_eq. reflexivity.
Qed.

(** Whatever the branch, a call that returns has set one key of the sample
    area. *)
Lemma get_sample_area_data_sets self sample_area result :
  VectorDataset.get_sample_area_data self sample_area = Ok result ->
  exists value,
    result = Feature_set sample_area (VectorDataset.name self) value.
Proof.
  rewrite get_sample_area_data_cases.
  destruct (VectorDataset.overlaps_of self sample_area) as [|f [|f' l]];
    intros Hres;
    repeat (apply bind_Ok_inv in Hres; destruct Hres as [? [? Hres]]);
    injection Hres as <-; eauto.
Qed.

(** Exactly one feature of the layer intersects the sample geometry: the
    value attached is the property of that feature, whatever the rest of
    the layer. *)
Theorem exactly_one_overlap self sample_area feature :
  FeatureCollection_filterBounds (VectorDataset.data self)
    (Feature_geometry sample_area) = [feature] ->
  VectorDataset.get_sample_area_data self sample_area
  = Ok (Feature_set sample_area (VectorDataset.name self)
          (Feature_get feature (VectorDataset.property self))).
Proof.
  intros Hone. rewrite get_sample_area_data_cases.
  unfold VectorDataset.overlaps_of. rewrite Hone. reflexivity.
Qed.

(** *** The nearest feature *)

Lemma candidates_app sample_area (l1 l2 : list (Feature Geometry)) :
  candidates sample_area (l1 ++ l2)
  = candidates sample_area l1 ++ candidates sample_area l2.
Proof.
  unfold VectorDataset.candidates. induction l1 as [|s l1 IH]; [reflexivity|].
  simpl app. cbn [omap list_omap].
  destruct (Filter_withinDistance 10000 10 sample_area s); simpl;
    rewrite IH; reflexivity.
Qed.

Lemma candidate_is_feature sample_area (l : list (Feature Geometry))
    (c : Feature Geometry * Q) :
  In c (candidates sample_area l) ->
  In (fst c) l /\ snd c = distance_to sample_area (fst c).
Proof.
  unfold VectorDataset.candidates. induction l as [|s l IH]; [intros []|].
  cbn [omap list_omap]. unfold Filter_withinDistance at 1.
  fold (distance_to sample_area s).
  destruct (Qle_bool (distance_to sample_area s) 10000); simpl.
  - intros [<-|Hin]; [simpl; auto|]. destruct (IH Hin). auto.
  - intros Hin. destruct (IH Hin). auto.
Qed.

(** The running best match is one of the candidates seen so far. *)
Lemma foldl_better_match_in (cs : list (Feature Geometry * Q))
    (best : option (Feature Geometry * Q)) :
  foldl better_match best cs = best
  \/ exists c, In c cs /\ foldl better_match best cs = Some c.
Proof.
  revert best. induction cs as [|c cs IH]; intros best; [left; reflexivity|].
  simpl. destruct (IH (better_match best c)) as [Heq|[c' [Hin Heq]]].
  - rewrite Heq. unfold better_match.
    destruct best as [b|]; [|right; exists c; auto].
    destruct (Qle_bool (snd b) (snd c)); [left; reflexivity|].
    right. exists c. auto.
  - right. exists c'. auto.
Qed.

(** A best match strictly nearer than every later candidate stays. *)
Lemma foldl_better_match_keeps (cs : list (Feature Geometry * Q))
    (b : Feature Geometry * Q) :
  (forall c, In c cs -> snd b < snd c) ->
  foldl better_match (Some b) cs = Some b.
Proof.
  induction cs as [|c cs IH]; intros Hlt; [reflexivity|].
  simpl. assert (Hle : Qle_bool (snd b) (snd c) = true).
  { apply Qle_bool_iff. apply Qlt_le_weak. apply Hlt. left. reflexivity. }
  rewrite Hle. apply IH. intros c' Hc'. apply Hlt. right. exact Hc'.
Qed.

Lemma best_match_strictly_nearest sample_area
    (before : list (Feature Geometry)) feature
    (after : list (Feature Geometry)) :
  distance_to sample_area feature <= 10000 ->
  (forall g, In g before ->
     distance_to sample_area feature < distance_to sample_area g) ->
  (forall g, In g after ->
     distance_to sample_area feature < distance_to sample_area g) ->
  best_match (Filter_withinDistance 10000 10) sample_area
    (before ++ feature :: after)
  = Some (feature, distance_to sample_area feature).
Proof.
  intros Hnear Hbefore Hafter. unfold best_match.
  fold (candidates sample_area (before ++ feature :: after)).
  rewrite (candidates_app sample_area before (feature :: after)).
  rewrite foldl_app.
  assert (Hhead : candidates sample_area (feature :: after)
                  = (feature, distance_to sample_area feature)
                    :: candidates sample_area after).
  { unfold VectorDataset.candidates. cbn [omap list_omap].
    unfold Filter_withinDistance at 1.
    fold (distance_to sample_area feature).
    apply Qle_bool_iff in Hnear. rewrite Hnear. reflexivity. }
  rewrite Hhead. simpl foldl.
  assert (Hbest : better_match
                    (foldl better_match None (candidates sample_area before))
                    (feature, distance_to sample_area feature)
                  = Some (feature, distance_to sample_area feature)).
  { destruct (foldl_better_match_in (candidates sample_area before) None)
      as [->|[c [Hin ->]]]; [reflexivity|].
    apply candidate_is_feature in Hin. destruct Hin as [Hin Hd].
    unfold better_match. rewrite Hd. cbn [snd].
    assert (Hgt : Qle_bool (distance_to sample_area (fst c))
                    (distance_to sample_area feature) = false).
    { apply Qle_bool_false. auto. }
    rewrite Hgt. reflexivity. }
  rewrite Hbest. apply foldl_better_match_keeps.
  intros c Hin. apply candidate_is_feature in Hin.
  destruct Hin as [Hin ->]. cbn [snd]. auto.
Qed.

(** No feature of the layer intersects the sample geometry, and one
    feature within 10000 units of it is strictly nearer than every
    other: the value attached is the property of that feature. *)
Theorem nearest_within_radius self sample_area
    (before : list (Feature Geometry)) feature
    (after : list (Feature Geometry)) :
  VectorDataset.data self = before ++ feature :: after ->
  (forall f, In f (VectorDataset.data self) ->
     Geometry_intersects (Feature_geometry f) (Feature_geometry sample_area)
     = false) ->
  distance_to sample_area feature <= 10000 ->
  (forall g, In g before ->
     distance_to sample_area feature < distance_to sample_area g) ->
  (forall g, In g after ->
     distance_to sample_area feature < distance_to sample_area g) ->
  VectorDataset.get_sample_area_data self sample_area
  = Ok (Feature_set sample_area (VectorDataset.name self)
          (Feature_get feature (VectorDataset.property self))).
Proof.
  intros Hdata Hdisjoint Hnear Hbefore Hafter.
  rewrite get_sample_area_data_cases.
  unfold VectorDataset.overlaps_of.
  rewrite filterBounds_none by assumption. simpl map. cbv iota.
  unfold VectorDataset.get_nearest_feature, Join_saveBest_apply.
  simpl flat_map. rewrite Hdata.
  rewrite best_match_strictly_nearest by assumption.
  unfold Feature_set, Feature_get, Feature_value, Element_get,
    FeatureCollection_first. simpl.
  rewrite lookup_insert_ne by discriminate.
  rewrite lookup_insert_eq. reflexivity.
Qed.
End WithService.
End VectorSpec.


(** ** Either kind of dataset *)

Module DatasetSpec.
Section WithService.
Context `{GeoCompute Geometry Raster}.

Lemma raster_sets (self : RasterDataset.t) (sample_area result : Feature Geometry) :
  RasterDataset.get_sample_area_data self sample_area = Ok result ->
  exists value,
    result = Feature_set sample_area (RasterDataset.band self) value.
Proof.
  rewrite RasterSpec.get_sample_area_data_eq.
  unfold RasterDataset.reduce_over. intros Hres.
  repeat (apply bind_Ok_inv in Hres; destruct Hres as [? [? Hres]]).
  injection Hres as <-. eauto.
Qed.

Lemma sets_key (d : Dataset.t) (sample_area result : Feature Geometry) :
  Dataset.get_sample_area_data d sample_area = Ok result ->
  exists value, result = Feature_set sample_area (Dataset.key d) value.
Proof.
  destruct d as [r|v]; simpl.
  - apply raster_sets.
  - apply VectorSpec.get_sample_area_data_sets.
Qed.

(** C7, amended. A call that returns gives a sample area with the geometry
    of the input and with the attributes of the input in which the key of
    the dataset is set to the result: an attribute of the input under
    another key is unchanged; the attribute count grows by one when the
    input had nothing under that key and stays the same when it had. *)
Theorem sets_only_the_dataset_key (d : Dataset.t)
    (sample_area result : Feature Geometry) :
  Dataset.get_sample_area_data d sample_area = Ok result ->
  Feature_geometry result = Feature_geometry sample_area
  /\ (exists value,
       Feature_properties result
       = <[Dataset.key d := value]> (Feature_properties sample_area))
  /\ (forall k, k <> Dataset.key d ->
        Feature_properties result !! k = Feature_properties sample_area !! k)
  /\ (Feature_properties sample_area !! Dataset.key d = None ->
      size (Feature_properties result)
      = S (size (Feature_properties sample_area)))
  /\ (is_Some (Feature_properties sample_area !! Dataset.key d) ->
      size (Feature_properties result)
      = size (Feature_properties sample_area)).
Proof.
  intros Hres. apply sets_key in Hres. destruct Hres as [value ->].
  unfold Feature_set. simpl. split; [reflexivity|].
  split; [eauto|]. split; [|split].
  - intros k Hk. apply lookup_insert_ne. congruence.
  - intros Hnone. apply map_size_insert_None. exact Hnone.
  - intros Hsome. apply map_size_insert_Some. exact Hsome.
Qed.
End WithService.
End DatasetSpec.

(** ** Sample areas *)

Module ExtractorSpec.
Import Extractor.


Section WithService.
Context `{GeoCompute Geometry Raster}.

Lemma lookup_map {A B} (f : A -> B) (l : list A) (i : nat) :
  map f l !! i = f <$> l !! i.
Proof.
  revert i. induction l as [|x l IH]; intros [|i]; simpl; auto.
Qed.
End WithService.
End ExtractorSpec.


(** ** [RasterDataset]: what a query returns, and when it faults *)

Module RasterQueries.
Section WithService.
Context `{GeoCompute Geometry Raster}.
Implicit Types (self : @RasterDataset.t Geometry Raster).
Implicit Types (sample_area : Feature Geometry).

Abbreviation statistic_of := RasterDataset.statistic_of.

(** A dataset whose data is one band under its own name answers every
    query: the value is the statistic of that band, at scale 100, over the
    sample geometry or over that geometry buffered by the distance found. *)
Lemma single_band_returns self r sample_area :
  RasterDataset.data self = Ok [(RasterDataset.band self, r)] ->
  exists g,
    RasterDataset.get_sample_area_data self sample_area
    = Ok (Feature_set sample_area (RasterDataset.band self)
            (of_option
               (Raster_reduce r (statistic_of (RasterDataset.categorical self))
                  g 100 1e9)))
    /\ (g = Feature_geometry sample_area
        \/ exists d,
             RasterDataset.distance self (Feature_geometry sample_area)
             = Ok (Num d)
             /\ ~ d == 0
             /\ g = Geometry_buffer (Feature_geometry sample_area) d).
Proof.
  intros Hdata.
  assert (Hreduce : forall g,
    RasterDataset.reduce_over self sample_area g
    = Ok (Feature_set sample_area (RasterDataset.band self)
            (of_option
               (Raster_reduce r (statistic_of (RasterDataset.categorical self))
                  g 100 1e9)))).
  { intros g. unfold RasterDataset.reduce_over.
    unfold RasterDataset.statistic_of.
    rewrite (RasterSpec.mode_single _ r), (RasterSpec.median_single _ r)
      by assumption.
    destruct (RasterDataset.categorical self); reflexivity. }
  rewrite RasterSpec.get_sample_area_data_eq.
  destruct (RasterDataset.distance self (Feature_geometry sample_area))
    as [probe|msg] eqn:Hprobe.
  2:{ rewrite (RasterSpec.distance_single _ r) in Hprobe by assumption.
      discriminate Hprobe. }
  rewrite bind_Ok.
  assert (Hshape : probe = Null \/ exists d, probe = Num d).
  { rewrite (RasterSpec.distance_single _ r) in Hprobe by assumption.
    injection Hprobe as <-.
    destruct (Raster_reduce _ _ _ _ _); simpl; eauto. }
  destruct Hshape as [->|[d ->]].
  - exists (Feature_geometry sample_area). simpl truthy. cbv iota.
    rewrite bind_Ok. auto.
  - destruct (truthy (@Num Geometry d)) eqn:Ht.
    + assert (Hnz : Qeq_bool d 0 = false).
      { simpl in Ht. apply negb_true_iff in Ht. exact Ht. }
      unfold Number_eq. rewrite Hnz.
      change (Algorithms_If (Ok (@Num Geometry 0))
                (Ok (Feature_geometry sample_area))
                (buffer (Feature_geometry sample_area) (Num d)))
        with (@Ok Geometry (Geometry_buffer (Feature_geometry sample_area) d)).
      rewrite bind_Ok.
      exists (Geometry_buffer (Feature_geometry sample_area) d).
      split; [apply Hreduce|]. right. exists d.
      split; [reflexivity|]. split; [|reflexivity].
      intros Hz. apply Qeq_bool_iff in Hz. congruence.
    + exists (Feature_geometry sample_area). rewrite bind_Ok. auto.
Qed.

(** A dataset constructed from an image that has the band never faults.
    The distance found is the mean, at scale 100, of the distance surface
    of the band for a kernel of 1000 meters; the value attached is the
    statistic of the band over the sample geometry when that distance is
    null or zero, and over the sample geometry buffered by that distance
    otherwise. *)
Theorem image_with_band_returns image b n categorical map_params r
    sample_area :
  Image_band image b = Some r ->
  let self := RasterDataset.__init__ (RasterDataset.ee_Image image)
                b n categorical map_params in
  let found :=
    Raster_reduce (Raster_distance r (Kernel_euclidean 1000 "meters") false)
      Reducer_mean (Feature_geometry sample_area) 100 1e9 in
  let g :=
    match found with
    | None => Feature_geometry sample_area
    | Some d =>
        if Qeq_bool d 0 then Feature_geometry sample_area
        else Geometry_buffer (Feature_geometry sample_area) d
    end in
  RasterDataset.distance self (Feature_geometry sample_area)
  = Ok (of_option found)
  /\ RasterDataset.get_sample_area_data self sample_area
     = Ok (Feature_set sample_area (py_or n b)
             (of_option (Raster_reduce r (statistic_of categorical) g 100 1e9))).
Proof.
  intros Hband self found g.
  assert (Hdata : RasterDataset.data self
                  = Ok [(RasterDataset.band self, r)]).
  { apply RasterSpec.init_image_data. exact Hband. }
  assert (Hprobe : RasterDataset.distance self (Feature_geometry sample_area)
                   = Ok (of_option found)).
  { apply (RasterSpec.distance_single self r). exact Hdata. }
  split; [exact Hprobe|].
  rewrite RasterSpec.get_sample_area_data_eq, Hprobe, bind_Ok.
  assert (Hreduce : forall g0,
    RasterDataset.reduce_over self sample_area g0
    = Ok (Feature_set sample_area (py_or n b)
            (of_option
               (Raster_reduce r (statistic_of categorical) g0 100 1e9)))).
  { intros g0. unfold RasterDataset.reduce_over.
    rewrite (RasterSpec.mode_single self r), (RasterSpec.median_single self r)
      by exact Hdata.
    subst self. simpl. destruct categorical; reflexivity. }
  subst g. destruct found as [d|]; simpl of_option.
  - simpl truthy. destruct (Qeq_bool d 0) eqn:Hz; simpl negb; cbv iota.
    + rewrite bind_Ok. apply Hreduce.
    + unfold Number_eq. rewrite Hz.
      change (Algorithms_If (Ok (@Num Geometry 0))
                (Ok (Feature_geometry sample_area))
                (buffer (Feature_geometry sample_area) (Num d)))
        with (@Ok Geometry (Geometry_buffer (Feature_geometry sample_area) d)).
      rewrite bind_Ok. apply Hreduce.
  - simpl truthy. cbv iota. rewrite bind_Ok. apply Hreduce.
Qed.

(** Selecting in every image of a collection. *)
Lemma collection_select_all (c : list (Image Raster)) (rs : list Raster)
    (b n : string) :
  Forall2 (fun img r => Image_band img b = Some r) c rs ->
  ImageCollection_select c [b] [n] = Ok (map (fun r => [(n, r)]) rs).
Proof.
  unfold ImageCollection_select.
  induction 1 as [|img r c rs Hband _ IH]; [reflexivity|].
  cbn [mapM]. rewrite RasterSpec.Image_select_single, Hband.
  rewrite bind_Ok, IH. reflexivity.
Qed.

Lemma collection_select_missing (c : list (Image Raster)) (b n : string) :
  Exists (fun img => Image_band img b = None) c ->
  ImageCollection_select c [b] [n]
  = Fault "Image.select: Pattern did not match any bands.".
Proof.
  unfold ImageCollection_select.
  induction c as [|img c IH]; intros Hex; [inversion Hex|].
  cbn [mapM]. rewrite RasterSpec.Image_select_single.
  destruct (Image_band img b) as [r|] eqn:Hband; [|reflexivity].
  rewrite bind_Ok. rewrite IH; [reflexivity|].
  inversion Hex as [? ? Hnone|]; [congruence | assumption].
Qed.

Lemma bands_of_selected (rs : list Raster) (n : string) :
  omap (fun img => Image_band img n) (map (fun r => [(n, r)]) rs) = rs.
Proof.
  induction rs as [|r rs IH]; [reflexivity|].
  rewrite map_cons. cbn [omap list_omap].
  rewrite RasterSpec.Image_band_head, IH. reflexivity.
Qed.

(** A dataset constructed from a collection that is not empty and whose
    images all have the band exposes one band, under the name of the
    dataset: the mosaic of the bands of the images, in the order of the
    collection. *)
Lemma collection_data (c : list (Image Raster)) (rs : list Raster)
    b n categorical map_params :
  c <> [] ->
  Forall2 (fun img r => Image_band img b = Some r) c rs ->
  let self := RasterDataset.__init__ (RasterDataset.ee_ImageCollection c)
                b n categorical map_params in
  RasterDataset.data self
  = Ok [(RasterDataset.band self, Raster_mosaic rs)].
Proof.
  intros Hne Hall. simpl.
  rewrite (collection_select_all c rs) by assumption.
  destruct Hall as [|img r c rs Hband Hall]; [contradiction|].
  simpl. rewrite RasterSpec.Image_band_head. simpl.
  rewrite bands_of_selected. reflexivity.
Qed.

(** A dataset constructed from a collection that is not empty and whose
    images all have the band never faults: the value is the statistic of
    the mosaic. *)
Theorem collection_with_band_returns (c : list (Image Raster))
    (rs : list Raster) b n categorical map_params sample_area :
  c <> [] ->
  Forall2 (fun img r => Image_band img b = Some r) c rs ->
  exists g,
    RasterDataset.get_sample_area_data
      (RasterDataset.__init__ (RasterDataset.ee_ImageCollection c)
         b n categorical map_params) sample_area
    = Ok (Feature_set sample_area (py_or n b)
            (of_option
               (Raster_reduce (Raster_mosaic rs) (statistic_of categorical)
                  g 100 1e9)))
    /\ (g = Feature_geometry sample_area
        \/ exists d, g = Geometry_buffer (Feature_geometry sample_area) d).
Proof.
  intros Hne Hall.
  destruct (single_band_returns
              (RasterDataset.__init__ (RasterDataset.ee_ImageCollection c)
                 b n categorical map_params) (Raster_mosaic rs) sample_area)
    as [g [Hres Hg]].
  { apply (collection_data c rs); assumption. }
  exists g. split; [exact Hres|].
  destruct Hg as [->|[d [_ [_ ->]]]]; eauto.
Qed.

(** A band that the image, or an image of the collection, does not have:
    the constructor raises nothing, and every query faults. *)
Theorem missing_band_faults snippet b n categorical map_params sample_area :
  match snippet with
  | RasterDataset.ee_Image image => Image_band image b = None
  | RasterDataset.ee_ImageCollection c =>
      Exists (fun img => Image_band img b = None) c
  end ->
  RasterDataset.get_sample_area_data
    (RasterDataset.__init__ snippet b n categorical map_params) sample_area
  = Fault "Image.select: Pattern did not match any bands.".
Proof.
  intros Hmissing.
  unfold RasterDataset.get_sample_area_data, RasterDataset.distance.
  destruct snippet as [image|c]; unfold RasterDataset.__init__;
    cbn [RasterDataset.data].
  - rewrite RasterSpec.Image_select_single, Hmissing. reflexivity.
  - rewrite collection_select_missing by assumption. reflexivity.
Qed.

(** An empty collection: the mosaic has no band, and every query faults
    where the distance probe selects the band. *)
Theorem empty_collection_faults b n categorical map_params sample_area :
  RasterDataset.data
    (RasterDataset.__init__ (RasterDataset.ee_ImageCollection [])
       b n categorical map_params) = Ok []
  /\ RasterDataset.get_sample_area_data
       (RasterDataset.__init__
          (RasterDataset.ee_ImageCollection ([] : list (Image Raster)))
          b n categorical map_params) sample_area
     = Fault "Image.select: Pattern did not match any bands.".
Proof. split; reflexivity. Qed.
End WithService.
End RasterQueries.

(** ** [VectorDataset]: which feature is resolved, and when *)

Module VectorQueries.
Section WithService.
Context `{GeoCompute Geometry Raster}.
Implicit Types (self : @VectorDataset.t Geometry).
Implicit Types (sample_area feature : Feature Geometry).
Abbreviation with_area := VectorDataset.with_area.
Abbreviation area_of := VectorDataset.area_of.
Abbreviation distance_to := VectorDataset.distance_to.
Abbreviation candidates := VectorDataset.candidates.

(** Every collection that is not empty splits at its first overlap of
    maximal area. *)
Lemma first_maximal_exists (l : list (Feature Geometry)) :
  l <> [] ->
  exists before feature after,
    l = before ++ feature :: after
    /\ (forall g, In g before -> area_of g < area_of feature)
    /\ (forall g, In g after -> area_of g <= area_of feature).
Proof.
  induction l as [|x l IH]; [contradiction|]. intros _.
  destruct l as [|y l].
  - exists [], x, []. repeat split; intros g [].
  - destruct IH as [before [f [after [Hl [Hb Ha]]]]]; [discriminate|].
    destruct (Qlt_le_dec (area_of x) (area_of f)) as [Hlt|Hle].
    + exists (x :: before), f, after. rewrite Hl. repeat split.
      * intros g [<-|Hg]; auto.
      * exact Ha.
    + exists [], x, (y :: l). repeat split; [intros g []|].
      intros g Hg. rewrite Hl in Hg. apply in_app_or in Hg.
      destruct Hg as [Hg|[<-|Hg]].
      * apply Qlt_le_weak. apply Qlt_le_trans with (area_of f); auto.
      * exact Hle.
      * apply Qle_trans with (area_of f); auto.
Qed.

(** The predominant feature of a collection that is not empty is one of
    its overlaps, with the area recorded on it, and no overlap of the
    collection has a larger area. *)
Theorem predominant_is_maximal self (overlaps : list (Feature Geometry)) :
  overlaps <> [] ->
  exists feature,
    In feature overlaps
    /\ VectorDataset.get_predominant_feature self overlaps
       = Feature_value (with_area feature)
    /\ forall g, In g overlaps -> area_of g <= area_of feature.
Proof.
  intros Hne.
  destruct (first_maximal_exists overlaps Hne)
    as [before [f [after [-> [Hb Ha]]]]].
  exists f. split; [apply in_or_app; right; left; reflexivity|].
  split; [apply VectorSpec.first_maximal_overlap; assumption|].
  intros g Hg. apply in_app_or in Hg. destruct Hg as [Hg|[<-|Hg]].
  - apply Qlt_le_weak. auto.
  - apply Qle_refl.
  - auto.
Qed.

(** *** The join of [get_nearest_feature] *)

Lemma candidate_within sample_area (l : list (Feature Geometry))
    (c : Feature Geometry * Q) :
  In c (candidates sample_area l) -> snd c <= 10000.
Proof.
  unfold VectorDataset.candidates. induction l as [|s l IH]; [intros []|].
  cbn [omap list_omap]. unfold Filter_withinDistance at 1.
  destruct (Qle_bool _ 10000) eqn:Hle; simpl.
  - intros [<-|Hin]; [apply Qle_bool_iff; exact Hle | auto].
  - auto.
Qed.

Lemma feature_is_candidate sample_area (l : list (Feature Geometry)) feature :
  In feature l -> distance_to sample_area feature <= 10000 ->
  In (feature, distance_to sample_area feature) (candidates sample_area l).
Proof.
  unfold VectorDataset.candidates. intros Hin Hnear.
  induction l as [|s l IH]; [destruct Hin|].
  cbn [omap list_omap]. destruct Hin as [->|Hin].
  - unfold Filter_withinDistance at 1.
    fold (distance_to sample_area feature).
    apply Qle_bool_iff in Hnear. rewrite Hnear. left. reflexivity.
  - destruct (Filter_withinDistance 10000 10 sample_area s); simpl; auto.
Qed.

(** The best match is no farther than the match it started from and than
    any candidate. *)
Lemma foldl_better_match_min (cs : list (Feature Geometry * Q))
    (best : option (Feature Geometry * Q)) (c : Feature Geometry * Q) :
  foldl better_match best cs = Some c ->
  (forall b, best = Some b -> snd c <= snd b)
  /\ (forall c', In c' cs -> snd c <= snd c').
Proof.
  revert best. induction cs as [|x cs IH]; intros best Hfold.
  - simpl in Hfold. subst best. split; [|intros c' []].
    intros b Hb. injection Hb as <-. apply Qle_refl.
  - simpl in Hfold. destruct (IH _ Hfold) as [Hbest Hrest].
    unfold better_match in Hbest.
    destruct best as [b|].
    + destruct (Qle_bool (snd b) (snd x)) eqn:Hle.
      * apply Qle_bool_iff in Hle.
        assert (Hcb : snd c <= snd b) by (apply Hbest; reflexivity).
        split.
        -- intros b' Hb'. injection Hb' as <-. exact Hcb.
        -- intros c' [<-|Hc']; [lra | auto].
      * apply Qle_bool_false in Hle.
        assert (Hcx : snd c <= snd x) by (apply Hbest; reflexivity).
        split.
        -- intros b' Hb'. injection Hb' as <-. lra.
        -- intros c' [<-|Hc']; [exact Hcx | auto].
    + split; [discriminate|].
      intros c' [<-|Hc']; [apply Hbest; reflexivity | auto].
Qed.

Lemma foldl_better_match_Some (cs : list (Feature Geometry * Q))
    (b : Feature Geometry * Q) :
  is_Some (foldl better_match (Some b) cs).
Proof.
  revert b. induction cs as [|x cs IH]; intros b; [simpl; eauto|].
  simpl. destruct (Qle_bool (snd b) (snd x)); apply IH.
Qed.

(** What the join finds: nothing when no feature is within 10000 units,
    and otherwise a feature within 10000 units that no feature of the
    collection is nearer than. *)
Lemma best_match_spec sample_area (l : list (Feature Geometry)) :
  match best_match (Filter_withinDistance 10000 10) sample_area l with
  | None => forall g, In g l -> 10000 < distance_to sample_area g
  | Some (f, d) =>
      In f l /\ d = distance_to sample_area f /\ d <= 10000
      /\ forall g, In g l -> distance_to sample_area g <= 10000 ->
                   d <= distance_to sample_area g
  end.
Proof.
  unfold best_match. fold (candidates sample_area l).
  destruct (foldl better_match None (candidates sample_area l))
    as [[f d]|] eqn:Hfold.
  - destruct (VectorSpec.foldl_better_match_in (candidates sample_area l) None)
      as [Hnone|[c [Hin Hc]]]; [congruence|].
    rewrite Hfold in Hc. injection Hc as <-.
    destruct (VectorSpec.candidate_is_feature _ _ _ Hin) as [Hf Hd].
    simpl in Hf, Hd. split; [exact Hf|]. split; [exact Hd|].
    split; [apply (candidate_within _ _ _ Hin)|].
    intros g Hg Hnear.
    destruct (foldl_better_match_min _ _ _ Hfold) as [_ Hmin].
    apply (Hmin (g, distance_to sample_area g)).
    apply feature_is_candidate; assumption.
  - intros g Hg. apply Qnot_le_lt. intros Hnear.
    pose proof (feature_is_candidate sample_area l g Hg Hnear) as Hin.
    destruct (candidates sample_area l) as [|c cs]; [destruct Hin|].
    simpl in Hfold.
    destruct (foldl_better_match_Some cs c) as [b Hb]. congruence.
Qed.

(** [get_nearest_feature] in terms of the best match. *)
Lemma get_nearest_feature_eq self sample_area :
  VectorDataset.get_nearest_feature self sample_area
  = match best_match (Filter_withinDistance 10000 10) sample_area
            (VectorDataset.data self) with
    | Some (f, d) => Ok (Feature_value f)
    | None => Fault "Element.get: Parameter 'object' is required."
    end.
Proof.
  unfold VectorDataset.get_nearest_feature, Join_saveBest_apply.
  simpl flat_map.
  destruct (best_match _ sample_area (VectorDataset.data self)) as [[f d]|];
    [|reflexivity].
  unfold Feature_set, Feature_value, Element_get, FeatureCollection_first.
  simpl. rewrite lookup_insert_ne by discriminate.
  rewrite lookup_insert_eq. reflexivity.
Qed.

(** The nearest feature that [get_nearest_feature] returns is a feature of
    the layer within 10000 units of the sample area, and no feature of the
    layer is nearer. *)
Theorem nearest_feature_sound self sample_area nearest :
  VectorDataset.get_nearest_feature self sample_area = Ok nearest ->
  exists feature,
    nearest = Feature_value feature
    /\ In feature (VectorDataset.data self)
    /\ distance_to sample_area feature <= 10000
    /\ forall g, In g (VectorDataset.data self) ->
         distance_to sample_area feature <= distance_to sample_area g.
Proof.
  rewrite get_nearest_feature_eq.
  pose proof (best_match_spec sample_area (VectorDataset.data self)) as Hspec.
  destruct (best_match _ sample_area (VectorDataset.data self)) as [[f d]|];
    [|discriminate].
  intros Hres. injection Hres as <-.
  destruct Hspec as [Hin [-> [Hnear Hmin]]].
  exists f. repeat split; auto.
  intros g Hg.
  destruct (Qlt_le_dec 10000 (distance_to sample_area g)) as [Hfar|Hclose].
  - lra.
  - auto.
Qed.

(** *** When a query returns *)

Lemma overlaps_nil_iff self sample_area :
  VectorDataset.overlaps_of self sample_area = []
  <-> forall f, In f (VectorDataset.data self) ->
        Geometry_intersects (Feature_geometry f) (Feature_geometry sample_area)
        = false.
Proof.
  unfold VectorDataset.overlaps_of. split.
  - unfold FeatureCollection_filterBounds. intros Hnil f Hf.
    destruct (Geometry_intersects _ _) eqn:Hi; [|reflexivity].
    assert (Hin : In f (List.filter
                          (fun feature =>
                             Geometry_intersects (Feature_geometry feature)
                               (Feature_geometry sample_area))
                          (VectorDataset.data self)))
      by (apply filter_In; auto).
    destruct (List.filter _ _); [destruct Hin | discriminate Hnil].
  - intros Hno.
    rewrite (VectorSpec.filterBounds_none _ _ Hno). reflexivity.
Qed.

(** A query returns exactly when some feature of the layer intersects the
    sample geometry or lies within 10000 units of it; otherwise it
    faults. *)
Theorem returns_iff_overlap_or_near self sample_area :
  (exists result,
     VectorDataset.get_sample_area_data self sample_area = Ok result)
  <-> exists f,
        In f (VectorDataset.data self)
        /\ (Geometry_intersects (Feature_geometry f)
              (Feature_geometry sample_area) = true
            \/ distance_to sample_area f <= 10000).
Proof.
  rewrite VectorSpec.get_sample_area_data_cases.
  pose proof (overlaps_nil_iff self sample_area) as Hnil.
  destruct (VectorDataset.overlaps_of self sample_area) as [|o [|o' os]] eqn:Hov.
  - rewrite get_nearest_feature_eq.
    pose proof (best_match_spec sample_area (VectorDataset.data self)) as Hspec.
    destruct (best_match _ sample_area (VectorDataset.data self)) as [[f d]|].
    + destruct Hspec as [Hin [-> [Hnear _]]]. split.
      * intros _. exists f. auto.
      * intros _. eexists. reflexivity.
    + split.
      * intros [result Hres]. discriminate Hres.
      * intros [f [Hf [Hi|Hnear]]].
        -- rewrite (proj1 Hnil eq_refl f Hf) in Hi. discriminate Hi.
        -- apply Hspec in Hf. lra.
  - split; [|intros _; eexists; reflexivity].
    intros _.
    destruct (List.filter
                (fun feature =>
                   Geometry_intersects (Feature_geometry feature)
                     (Feature_geometry sample_area))
                (VectorDataset.data self)) as [|f fs] eqn:Hf.
    + unfold VectorDataset.overlaps_of, FeatureCollection_filterBounds in Hov.
      rewrite Hf in Hov. discriminate Hov.
    + assert (Hin : In f (f :: fs)) by (left; reflexivity).
      rewrite <- Hf in Hin. apply filter_In in Hin. exists f. tauto.
  - split.
    + intros _.
      destruct (List.filter
                  (fun feature =>
                     Geometry_intersects (Feature_geometry feature)
                       (Feature_geometry sample_area))
                  (VectorDataset.data self)) as [|f fs] eqn:Hf.
      * unfold VectorDataset.overlaps_of, FeatureCollection_filterBounds in Hov.
        rewrite Hf in Hov. discriminate Hov.
      * assert (Hin : In f (f :: fs)) by (left; reflexivity).
        rewrite <- Hf in Hin. apply filter_In in Hin. exists f. tauto.
    + intros _.
      destruct (first_maximal_exists (o :: o' :: os))
        as [before [f [after [Hl [Hb Ha]]]]]; [discriminate|].
      rewrite Hl.
      rewrite (VectorSpec.first_maximal_overlap self before f after)
        by assumption.
      eexists. reflexivity.
Qed.

(** With no feature intersecting the sample geometry, a query that returns
    has attached the property of a feature of the layer that lies within
    10000 units of the sample area and that no feature of the layer is
    nearer than; the sample area keeps its own geometry. *)
Theorem zero_overlap_resolves_nearest self sample_area result :
  (forall f, In f (VectorDataset.data self) ->
     Geometry_intersects (Feature_geometry f) (Feature_geometry sample_area)
     = false) ->
  VectorDataset.get_sample_area_data self sample_area = Ok result ->
  exists feature,
    In feature (VectorDataset.data self)
    /\ distance_to sample_area feature <= 10000
    /\ (forall g, In g (VectorDataset.data self) ->
          distance_to sample_area feature <= distance_to sample_area g)
    /\ result = Feature_set sample_area (VectorDataset.name self)
                  (Feature_get feature (VectorDataset.property self)).
Proof.
  intros Hdisjoint. rewrite VectorSpec.get_sample_area_data_cases.
  rewrite (proj2 (overlaps_nil_iff self sample_area) Hdisjoint).
  rewrite get_nearest_feature_eq.
  pose proof (best_match_spec sample_area (VectorDataset.data self)) as Hspec.
  destruct (best_match _ sample_area (VectorDataset.data self)) as [[f d]|];
    [|discriminate].
  intros Hres. injection Hres as <-.
  destruct Hspec as [Hin [-> [Hnear Hmin]]].
  exists f. repeat split; auto.
  intros g Hg.
  destruct (Qlt_le_dec 10000 (distance_to sample_area g)) as [Hfar|Hclose].
  - lra.
  - auto.
Qed.

Lemma filterBounds_idempotent (c : list (Feature Geometry)) (g : Geometry) :
  FeatureCollection_filterBounds (FeatureCollection_filterBounds c g) g
  = FeatureCollection_filterBounds c g.
Proof.
  unfold FeatureCollection_filterBounds.
  induction c as [|f c IH]; [reflexivity|].
  simpl. destruct (Geometry_intersects (Feature_geometry f) g) eqn:Hi.
  - simpl. rewrite Hi, IH. reflexivity.
  - exact IH.
Qed.

(** When some feature intersects the sample geometry, the features of the
    layer that do not intersect it have no part in the result: the query
    gives what it gives on the layer reduced to the intersecting
    features. *)
Theorem non_overlapping_features_ignored self sample_area :
  FeatureCollection_filterBounds (VectorDataset.data self)
    (Feature_geometry sample_area) <> [] ->
  VectorDataset.get_sample_area_data self sample_area
  = VectorDataset.get_sample_area_data
      (VectorDataset.mk
         (FeatureCollection_filterBounds (VectorDataset.data self)
            (Feature_geometry sample_area))
         (VectorDataset.property self) (VectorDataset.name self)
         (VectorDataset.map_params self))
      sample_area.
Proof.
  intros Hne. rewrite !VectorSpec.get_sample_area_data_cases.
  unfold VectorDataset.overlaps_of. cbn [VectorDataset.data].
  rewrite filterBounds_idempotent.
  destruct (FeatureCollection_filterBounds (VectorDataset.data self)
              (Feature_geometry sample_area)) as [|f [|f' fs]];
    [contradiction | reflexivity | reflexivity].
Qed.

Lemma overlap_source self sample_area (o : Feature Geometry) :
  In o (VectorDataset.overlaps_of self sample_area) ->
  exists f,
    In f (VectorDataset.data self)
    /\ Geometry_intersects (Feature_geometry f) (Feature_geometry sample_area)
       = true
    /\ o = Feature_intersection f (Feature_geometry sample_area).
Proof.
  unfold VectorDataset.overlaps_of, FeatureCollection_filterBounds.
  intros Hin. apply in_map_iff in Hin. destruct Hin as [f [<- Hf]].
  apply filter_In in Hf. destruct Hf as [Hf Hi]. exists f. auto.
Qed.

(** For a dataset whose property is not the key ["area"], the value a
    query attaches is the value of that property on some feature of the
    layer (null when that feature lacks it): on a feature that intersects
    the sample geometry when one does, on a feature within 10000 units
    otherwise. *)
Theorem value_is_a_layer_property self sample_area result :
  VectorDataset.property self <> "area" ->
  VectorDataset.get_sample_area_data self sample_area = Ok result ->
  exists f,
    In f (VectorDataset.data self)
    /\ (Geometry_intersects (Feature_geometry f)
          (Feature_geometry sample_area) = true
        \/ distance_to sample_area f <= 10000)
    /\ result = Feature_set sample_area (VectorDataset.name self)
                  (Feature_get f (VectorDataset.property self)).
Proof.
  intros Hprop. rewrite VectorSpec.get_sample_area_data_cases.
  pose proof (overlap_source self sample_area) as Hsource.
  destruct (VectorDataset.overlaps_of self sample_area) as [|o [|o' os]].
  - rewrite get_nearest_feature_eq.
    pose proof (best_match_spec sample_area (VectorDataset.data self)) as Hspec.
    destruct (best_match _ sample_area (VectorDataset.data self)) as [[f d]|];
      [|discriminate].
    intros Hres. injection Hres as <-.
    destruct Hspec as [Hin [-> [Hnear _]]]. exists f. auto.
  - intros Hres. injection Hres as <-.
    destruct (Hsource o (or_introl eq_refl)) as [f [Hf [Hi ->]]].
    exists f. auto.
  - destruct (first_maximal_exists (o :: o' :: os))
      as [before [m [after [Hl [Hb Ha]]]]]; [discriminate|].
    assert (Hm : In m (o :: o' :: os)).
    { rewrite Hl. apply in_or_app. right. left. reflexivity. }
    destruct (Hsource m Hm) as [f [Hf [Hi Hmf]]].
    rewrite Hl.
    rewrite (VectorSpec.first_maximal_overlap self before m after)
      by assumption.
    intros Hres. injection Hres as <-.
    exists f. split; [exact Hf|]. split; [auto|].
    f_equal. rewrite Hmf.
    unfold Feature_get, VectorDataset.with_area, Feature_set,
      Feature_intersection.
    cbn [Feature_properties].
    rewrite lookup_insert_ne by congruence. reflexivity.
Qed.
End WithService.
End VectorQueries.

(** ** [extractor.py]: the sample areas under a dataset *)

Module ExtractorFacts.
Import Extractor.

Section WithService.
Context `{GeoCompute Geometry Raster}.

(** *** The sample areas *)

Lemma built_area (samples : list Sample) (br : Q) (i : nat) (sample : Sample) :
  samples !! i = Some sample ->
  define_feature_for_sample_areas samples br !! i
  = Some (mkFeature
            (Geometry_buffer
               (Geometry_Point (longitude sample) (latitude sample)) br)
            (<["spatial_uncertainty" := Num (spatial_uncertainty sample)]>
               (<["latitude" := Num (latitude sample)]>
                  (<["longitude" := Num (longitude sample)]>
                     (<["sample_date" := Str (sample_date sample)]>
                        (<["name" := Str (sample_id sample)]> ∅)))))).
Proof.
  intros Hi. unfold define_feature_for_sample_areas.
  rewrite ExtractorSpec.lookup_map, Hi. reflexivity.
Qed.

(** A dataset whose key is none of the five attribute names of a sample
    area: a query on the area of a sample that returns gives an area with
    six attributes, the five of the sample unchanged and the value of the
    dataset under its key, and with the geometry of the area. *)
Theorem dataset_keeps_sample_attributes (d : Dataset.t)
    (samples : list Sample) (br : Q) (i : nat) (sample : Sample)
    (area result : Feature Geometry) :
  samples !! i = Some sample ->
  define_feature_for_sample_areas samples br !! i = Some area ->
  ~ In (Dataset.key d)
       ["name"; "sample_date"; "longitude"; "latitude"; "spatial_uncertainty"] ->
  Dataset.get_sample_area_data d area = Ok result ->
  Feature_geometry result = Feature_geometry area
  /\ Feature_get result "name" = Str (sample_id sample)
  /\ Feature_get result "sample_date" = Str (sample_date sample)
  /\ Feature_get result "longitude" = Num (longitude sample)
  /\ Feature_get result "latitude" = Num (latitude sample)
  /\ Feature_get result "spatial_uncertainty" = Num (spatial_uncertainty sample)
  /\ is_Some (Feature_properties result !! Dataset.key d)
  /\ size (Feature_properties result) = 6%nat.
Proof.
  intros Hi Harea Hkey Hres.
  rewrite (built_area samples br i sample Hi) in Harea.
  injection Harea as <-.
  apply DatasetSpec.sets_key in Hres. destruct Hres as [value ->].
  assert (Hne : forall k,
    In k ["name"; "sample_date"; "longitude"; "latitude";
          "spatial_uncertainty"] -> Dataset.key d <> k).
  { intros k Hin Heq. apply Hkey. rewrite Heq. exact Hin. }
  assert (Hne' : forall k,
    In k ["name"; "sample_date"; "longitude"; "latitude";
          "spatial_uncertainty"] -> k <> Dataset.key d).
  { intros k Hin Heq. apply (Hne k Hin). symmetry. exact Heq. }
  unfold Feature_get, Feature_set. cbn [Feature_geometry Feature_properties].
  split; [reflexivity|].
  repeat (split;
          [rewrite lookup_insert_ne by (apply Hne; simpl; tauto); reflexivity|]).
  split; [rewrite lookup_insert_eq; eauto|].
  rewrite map_size_insert_None; [reflexivity|].
  repeat (rewrite lookup_insert_ne by (apply Hne'; simpl; tauto)).
  apply lookup_empty.
Qed.
End WithService.
End ExtractorFacts.

(** ** Runs on the line *)

Module Runs.
Import Line Scenario.

(** C1 on the three kinds of sample area: out of range, covered, and 250
    units short of the data. *)
Lemma geometry_selection_witness :
  (RasterDataset.get_sample_area_data elevation far_area
   = RasterDataset.reduce_over elevation far_area (5000, 5100))
  /\ (RasterDataset.get_sample_area_data elevation inside_area
      = RasterDataset.reduce_over elevation inside_area (100, 300))
  /\ (RasterDataset.get_sample_area_data elevation near_area
      = RasterDataset.reduce_over elevation near_area
          (Geometry_buffer (700, 800) 250)).
Proof.
  split; [|split].
  - apply (RasterSpec.geometry_selection elevation far_area Null).
    + vm_compute. reflexivity.
    + apply selects_no_value.
  - apply (RasterSpec.geometry_selection elevation inside_area (Num 0)).
    + vm_compute. reflexivity.
    + apply selects_covered. reflexivity.
  - apply (RasterSpec.geometry_selection elevation near_area (Num 250)).
    + vm_compute. reflexivity.
    + apply (selects_grown (Feature_geometry near_area) 250). reflexivity.
Defined.

(** C4 on the terrain image, 250 units from the data: the continuous
    dataset attaches the median, the categorical one the mode. *)
Lemma statistic_by_categorical_witness :
  RasterDataset.get_sample_area_data elevation near_area
  = Ok (Feature_set near_area (py_or None "elevation")
          (of_option
             (Raster_reduce elevation_pixels Reducer_median
                (Geometry_buffer (Feature_geometry near_area) 250) 100 1e9)))
  /\ RasterDataset.get_sample_area_data elevation_class near_area
     = Ok (Feature_set near_area (py_or (Some "class") "elevation")
             (of_option
                (Raster_reduce elevation_pixels Reducer_mode
                   (Geometry_buffer (Feature_geometry near_area) 250)
                   100 1e9))).
Proof.
  split.
  - apply (RasterSpec.statistic_by_categorical (H := service)
             (RasterDataset.ee_Image terrain) "elevation" None false ∅
             elevation_pixels near_area (Num 250)).
    + reflexivity.
    + vm_compute. reflexivity.
    + apply (selects_grown (Feature_geometry near_area) 250). reflexivity.
  - apply (RasterSpec.statistic_by_categorical (H := service)
             (RasterDataset.ee_Image terrain) "elevation" (Some "class")
             true ∅ elevation_pixels near_area (Num 250)).
    + reflexivity.
    + vm_compute. reflexivity.
    + apply (selects_grown (Feature_geometry near_area) 250). reflexivity.
Defined.

(** C2 at a dataset whose property is ["area"]: the two overlaps have areas
    100 and 300, the larger belongs to the region whose own ["area"] is
    1000, and the value attached is 300. *)
Lemma predominant_area_is_overwritten_witness :
  map VectorDataset.area_of
      (VectorDataset.overlaps_of region_surface straddling_area) = [100; 300]
  /\ Feature_get (region 1000 2000 "desert" 1000)
       (VectorDataset.property region_surface) = Num 1000
  /\ VectorDataset.get_sample_area_data region_surface straddling_area
     = Ok (Feature_set straddling_area "surface" (Num 300)).
Proof.
  split; [reflexivity|]. split; [reflexivity|].
  rewrite (VectorSpec.predominant_area_is_overwritten
             region_surface straddling_area
             [region 0 1000 "forest" 1000] (region 1000 2000 "desert" 1000) []).
  - reflexivity.
  - reflexivity.
  - reflexivity.
  - simpl. lia.
  - intros g [<-|[]]. vm_compute. reflexivity.
  - intros g [].
Defined.

(** C3 at a sample area 47500 units from the nearest region. *)
Lemma no_match_faults_witness :
  VectorDataset.get_sample_area_data ecoregion remote_area
  = Fault "Element.get: Parameter 'object' is required.".
Proof.
  apply VectorSpec.no_match_faults.
  - intros f Hf. simpl in Hf.
    destruct Hf as [<-|[<-|[<-|[]]]]; vm_compute; reflexivity.
  - intros f Hf. simpl in Hf.
    destruct Hf as [<-|[<-|[<-|[]]]]; vm_compute; reflexivity.
Defined.


(** C6 on the terrain image. *)
Lemma image_or_singleton_collection_witness :
  RasterDataset.get_sample_area_data
    (RasterDataset.__init__ (RasterDataset.ee_Image terrain)
       "elevation" None false ∅) near_area
  = RasterDataset.get_sample_area_data
      (RasterDataset.__init__ (RasterDataset.ee_ImageCollection [terrain])
         "elevation" None false ∅) near_area.
Proof.
  apply (RasterSpec.image_or_singleton_collection (H := service)).
Defined.

(** C7, as stated, fails for a dataset named like an attribute the sample
    area already has: the area built for sample "A" carries its id under
    ["name"]; the region-name dataset replaces it, and no attribute is
    added. *)
Lemma name_key_is_overwritten :
  ~ (forall result,
       Dataset.get_sample_area_data region_name_dataset
         first_sample_area = Ok result ->
       size (Feature_properties result)
       = S (size (Feature_properties first_sample_area))
       /\ forall k v,
            Feature_properties first_sample_area !! k = Some v ->
            Feature_properties result !! k = Some v).
Proof.
  intros Hclaim.
  destruct (Hclaim (Feature_set first_sample_area "name" (Str "forest")))
    as [Hsize _].
  - vm_compute. reflexivity.
  - vm_compute in Hsize. discriminate Hsize.
Qed.

(** C7, amended, on the same call: the geometry is kept and the ["name"]
    key is set. *)
Lemma sets_only_the_dataset_key_witness :
  Feature_geometry (Feature_set first_sample_area "name" (Str "forest"))
  = Feature_geometry first_sample_area
  /\ (exists value,
       Feature_properties (Feature_set first_sample_area "name" (Str "forest"))
       = <[Dataset.key region_name_dataset := value]>
           (Feature_properties first_sample_area)).
Proof.
  destruct (DatasetSpec.sets_only_the_dataset_key
              region_name_dataset first_sample_area
              (Feature_set first_sample_area "name" (Str "forest")))
    as [Hgeometry [Hset _]].
  - vm_compute. reflexivity.
  - split; [exact Hgeometry | exact Hset].
Defined.

(** C9 on overlaps of areas 100, 300 and 300. *)
Lemma predominant_is_first_maximal_witness :
  VectorDataset.get_predominant_feature ecoregion
    ([small_overlap] ++ first_large_overlap :: [second_large_overlap])
  = Feature_value (VectorDataset.with_area first_large_overlap)
  /\ forall self',
       VectorDataset.get_predominant_feature self'
         ([small_overlap] ++ first_large_overlap :: [second_large_overlap])
       = VectorDataset.get_predominant_feature ecoregion
           ([small_overlap] ++ first_large_overlap :: [second_large_overlap]).
Proof.
  apply VectorSpec.predominant_is_first_maximal.
  - intros g [<-|[]]. vm_compute. reflexivity.
  - intros g [<-|[]]. vm_compute. discriminate.
Defined.

(** C10 on a sample area that only touches the forest, at 1000, and shares
    200 units with the desert. *)
Lemma overlap_count_ignores_area_witness :
  FeatureCollection_size (VectorDataset.overlaps_of ecoregion touching_area)
  = Num (inject_Z (Z.of_nat (length
       (List.filter
          (fun f => Geometry_intersects (Feature_geometry f)
                      (Feature_geometry touching_area))
          (VectorDataset.data ecoregion)))))
  /\ (2 <= length (VectorDataset.overlaps_of ecoregion touching_area))%nat
  /\ VectorDataset.get_sample_area_data ecoregion touching_area
     = (value ← Element_get
                  (VectorDataset.get_predominant_feature ecoregion
                     (VectorDataset.overlaps_of ecoregion touching_area))
                  (VectorDataset.property ecoregion);
        Ok (Feature_set touching_area (VectorDataset.name ecoregion) value)).
Proof.
  apply (VectorSpec.overlap_count_ignores_area ecoregion touching_area
           (region 0 1000 "forest" 1000) (region 1000 2000 "desert" 1000)).
  - left. reflexivity.
  - right. left. reflexivity.
  - reflexivity.
  - reflexivity.
  - vm_compute. reflexivity.
  - vm_compute. reflexivity.
Defined.

(** The straddling area shares 100 units with the forest and 300 with the
    desert: the value is the desert's. *)
Lemma predominant_property_witness :
  VectorDataset.get_sample_area_data ecoregion straddling_area
  = Ok (Feature_set straddling_area (VectorDataset.name ecoregion)
          (Feature_get (region 1000 2000 "desert" 1000)
             (VectorDataset.property ecoregion))).
Proof.
  apply (VectorSpec.predominant_property ecoregion straddling_area
           [region 0 1000 "forest" 1000] (region 1000 2000 "desert" 1000) []).
  - discriminate.
  - reflexivity.
  - simpl. lia.
  - intros g [<-|[]]. vm_compute. reflexivity.
  - intros g [].
Defined.

(** The area of the first sample lies in the forest alone. *)
Lemma exactly_one_overlap_witness :
  VectorDataset.get_sample_area_data ecoregion first_sample_area
  = Ok (Feature_set first_sample_area (VectorDataset.name ecoregion)
          (Feature_get (region 0 1000 "forest" 1000)
             (VectorDataset.property ecoregion))).
Proof.
  apply (VectorSpec.exactly_one_overlap ecoregion first_sample_area).
  reflexivity.
Defined.

(** The nearby area is 500 units from the tundra, 1000 from the desert and
    2000 from the forest. *)
Lemma nearest_within_radius_witness :
  VectorDataset.get_sample_area_data ecoregion nearby_area
  = Ok (Feature_set nearby_area (VectorDataset.name ecoregion)
          (Feature_get (region 2000 2500 "tundra" 500)
             (VectorDataset.property ecoregion))).
Proof.
  apply (VectorSpec.nearest_within_radius ecoregion nearby_area
           [region 0 1000 "forest" 1000; region 1000 2000 "desert" 1000]
           (region 2000 2500 "tundra" 500) []).
  - reflexivity.
  - intros f Hf. simpl in Hf.
    destruct Hf as [<-|[<-|[<-|[]]]]; vm_compute; reflexivity.
  - vm_compute. discriminate.
  - intros g [<-|[<-|[]]]; vm_compute; reflexivity.
  - intros g [].
Defined.

(** A query 250 units from the data on the terrain image, which has the
    band: the geometry reduced is the sample geometry buffered by 250. *)
Lemma image_with_band_returns_witness :
  RasterDataset.distance elevation (Feature_geometry near_area)
  = Ok (Num 250)
  /\ RasterDataset.get_sample_area_data elevation near_area
     = Ok (Feature_set near_area "elevation"
             (of_option
                (Raster_reduce elevation_pixels Reducer_median
                   (Geometry_buffer (Feature_geometry near_area) 250)
                   100 1e9))).
Proof.
  exact (RasterQueries.image_with_band_returns (H := service)
           terrain "elevation" None false ∅ elevation_pixels near_area
           eq_refl).
Defined.

(** A collection of two tiles that both have the band. *)
Lemma collection_with_band_returns_witness :
  exists g,
    RasterDataset.get_sample_area_data
      (RasterDataset.__init__
         (RasterDataset.ee_ImageCollection [west_tile; east_tile])
         "NDVI" None false ∅) inside_area
    = Ok (Feature_set inside_area (py_or None "NDVI")
            (of_option
               (Raster_reduce
                  (Raster_mosaic [[(0, 1); (100, 2)]; [(100, 5); (200, 6)]])
                  (RasterDataset.statistic_of false) g 100 1e9)))
    /\ (g = Feature_geometry inside_area
        \/ exists d, g = Geometry_buffer (Feature_geometry inside_area) d).
Proof.
  apply (RasterQueries.collection_with_band_returns (H := service)
           [west_tile; east_tile]
           [[(0, 1); (100, 2)]; [(100, 5); (200, 6)]]
           "NDVI" None false ∅ inside_area).
  - discriminate.
  - repeat constructor.
Defined.

(** The band ["NDVI"] asked of a tile that only has ["EVI"]. *)
Lemma missing_band_faults_witness :
  RasterDataset.get_sample_area_data
    (RasterDataset.__init__ (RasterDataset.ee_Image bare_tile)
       "NDVI" None false ∅) inside_area
  = Fault "Image.select: Pattern did not match any bands.".
Proof.
  apply (RasterQueries.missing_band_faults (H := service)
           (RasterDataset.ee_Image bare_tile)).
  reflexivity.
Defined.

(** The predominant of three overlaps. *)
Lemma predominant_is_maximal_witness :
  exists feature,
    In feature [small_overlap; first_large_overlap; second_large_overlap]
    /\ VectorDataset.get_predominant_feature ecoregion
         [small_overlap; first_large_overlap; second_large_overlap]
       = Feature_value (VectorDataset.with_area feature)
    /\ forall g,
         In g [small_overlap; first_large_overlap; second_large_overlap] ->
         VectorDataset.area_of g <= VectorDataset.area_of feature.
Proof.
  apply (VectorQueries.predominant_is_maximal (H := service)).
  discriminate.
Defined.

(** The nearby area is resolved to the tundra, 500 units away. *)
Lemma zero_overlap_resolves_nearest_witness :
  exists feature,
    In feature (VectorDataset.data ecoregion)
    /\ VectorDataset.distance_to nearby_area feature <= 10000
    /\ (forall g, In g (VectorDataset.data ecoregion) ->
          VectorDataset.distance_to nearby_area feature
          <= VectorDataset.distance_to nearby_area g)
    /\ Feature_set nearby_area "eco" (Str "tundra")
       = Feature_set nearby_area (VectorDataset.name ecoregion)
           (Feature_get feature (VectorDataset.property ecoregion)).
Proof.
  apply (VectorQueries.zero_overlap_resolves_nearest ecoregion nearby_area).
  - intros f Hf. simpl in Hf.
    destruct Hf as [<-|[<-|[<-|[]]]]; vm_compute; reflexivity.
  - vm_compute. reflexivity.
Defined.

(** The straddling area on the whole layer and on its two overlapping
    regions alone. *)
Lemma non_overlapping_features_ignored_witness :
  VectorDataset.get_sample_area_data ecoregion straddling_area
  = VectorDataset.get_sample_area_data
      (VectorDataset.mk
         (FeatureCollection_filterBounds (VectorDataset.data ecoregion)
            (Feature_geometry straddling_area))
         (VectorDataset.property ecoregion) (VectorDataset.name ecoregion)
         (VectorDataset.map_params ecoregion))
      straddling_area.
Proof.
  apply (VectorQueries.non_overlapping_features_ignored
           ecoregion straddling_area).
  intros Hnil. vm_compute in Hnil. discriminate Hnil.
Defined.

(** The elevation dataset on the area of the first sample. *)
Lemma dataset_keeps_sample_attributes_witness :
  Feature_geometry (Feature_set first_sample_area "elevation" (Num 12))
  = Feature_geometry first_sample_area
  /\ Feature_get (Feature_set first_sample_area "elevation" (Num 12)) "name"
     = Str "A"
  /\ size (Feature_properties
             (Feature_set first_sample_area "elevation" (Num 12))) = 6%nat.
Proof.
  destruct (ExtractorFacts.dataset_keeps_sample_attributes
              elevation_dataset samples 50 0
              (Extractor.mkSample "A" 100 34 "2021-03-01" 10)
              first_sample_area
              (Feature_set first_sample_area "elevation" (Num 12)))
    as [Hgeometry [Hname [_ [_ [_ [_ [_ Hsize]]]]]]].
  - reflexivity.
  - reflexivity.
  - intros [Hk|[Hk|[Hk|[Hk|[Hk|[]]]]]]; discriminate Hk.
  - vm_compute. reflexivity.
  - split; [exact Hgeometry|]. split; [exact Hname | exact Hsize].
Defined.

(** The value attached to the straddling area is a region's. *)
Lemma value_is_a_layer_property_witness :
  exists f,
    In f (VectorDataset.data ecoregion)
    /\ (Geometry_intersects (Feature_geometry f)
          (Feature_geometry straddling_area) = true
        \/ VectorDataset.distance_to straddling_area f <= 10000)
    /\ Feature_set straddling_area "eco" (Str "desert")
       = Feature_set straddling_area (VectorDataset.name ecoregion)
           (Feature_get f (VectorDataset.property ecoregion)).
Proof.
  apply (VectorQueries.value_is_a_layer_property ecoregion straddling_area).
  - discriminate.
  - vm_compute. reflexivity.
Defined.
End Runs.
